(** * IFungi monitoring client: heartbeat monitor, history reducer,
      chart range and labels, actuator state derivation.

    Shallow embedding of the TypeScript sources:
    - the richer monitoring screen (Monitoramento.tsx, 25 s timeout,
      5 s poll, 10 s grace period);
    - the simpler monitoring screen (45 s timeout, no grace period);
    - the two variants of the actuator screen (estado_estufa.tsx).

    Conventions.  Timestamps are integer milliseconds ([Z]), as returned by
    [Date.now()].  Sensor readings are rationals ([Q]) standing for the
    finite values of the JavaScript [number] type; [NaN], [null] and
    [undefined] are separate constructors.  Arithmetic on readings is
    binary64 arithmetic: the exact result rounded to the nearest binary64
    value.  A call of a React state setter is recorded in the result of the
    function that performs it. *)

From Stdlib Require Import ZArith QArith Qround Qpower Qabs.
From Stdlib Require Import Bool List String Ascii Lia Lqa.
From Stdlib Require Import Sorted Permutation DecimalString.
Import ListNotations.

Local Open Scope Z_scope.

(* ================================================================== *)
(** ** Timestamps as the screens receive them *)

(** A value of the declared type [number] read from a snapshot field that
    may be absent: [undefined], [NaN] or a finite integer. *)
Inductive tsval : Type :=
| TUndefined
| TNaN
| TNum (t : Z).

(** JavaScript truthiness of such a value: [undefined], [NaN] and [0] are
    falsy. *)
Definition truthy (v : tsval) : bool :=
  match v with
  | TNum t => negb (t =? 0)
  | _ => false
  end.

(** [v > r] for a finite [r]: false whenever [v] does not convert to a
    finite number. *)
Definition gt_num (v : tsval) (r : Z) : bool :=
  match v with
  | TNum t => r <? t
  | _ => false
  end.

(** [a || b] on timestamps. *)
Definition js_or (a b : tsval) : tsval := if truthy a then a else b.

(* ================================================================== *)
(** ** The richer heartbeat monitor (Monitoramento.tsx) *)

Module Heartbeat.

Definition HEARTBEAT_TIMEOUT : Z := 25000.
Definition CHECK_INTERVAL : Z := 5000.
Definition INITIAL_GRACE_PERIOD : Z := 10000.

(** The two refs and the React state [isOnline] of the component. *)
Record Monitor : Type := mkMonitor {
  lastHeartbeatRef : Z;
  initialLoadRef : bool;
  isOnline : bool
}.

(** [useRef(0)], [useRef(true)], [useState(false)]. *)
Definition initialMonitor : Monitor := mkMonitor 0 true false.

Definition setIsOnline (b : bool) (m : Monitor) : Monitor :=
  mkMonitor (lastHeartbeatRef m) (initialLoadRef m) b.

Definition setInitialLoad (b : bool) (m : Monitor) : Monitor :=
  mkMonitor (lastHeartbeatRef m) b (isOnline m).

Definition setLastHeartbeat (t : Z) (m : Monitor) : Monitor :=
  mkMonitor t (initialLoadRef m) (isOnline m).

(** [checkHeartbeatStatus].  [seen] is the value of the constant [isOnline]
    in the scope of the closure that runs: the state of the render that
    created the closure.  The second component is the argument of the call
    of [setIsOnline], if the function makes one. *)
Definition checkHeartbeatStatus (seen : bool) (currentTime : Z) (m : Monitor)
  : Monitor * option bool :=
  let timeSinceLastHeartbeat := currentTime - lastHeartbeatRef m in
  if initialLoadRef m && (timeSinceLastHeartbeat <? INITIAL_GRACE_PERIOD) then
    (setIsOnline true m, Some true)
  else
    let m1 :=
      if initialLoadRef m && (timeSinceLastHeartbeat >=? INITIAL_GRACE_PERIOD)
      then setInitialLoad false m else m in
    let shouldBeOnline := timeSinceLastHeartbeat <? HEARTBEAT_TIMEOUT in
    if negb (Bool.eqb seen shouldBeOnline)
    then (setIsOnline shouldBeOnline m1, Some shouldBeOnline)
    else (m1, None).

(** [updateHeartbeat]: the guard is
    [lastHeartbeat && lastHeartbeat > lastHeartbeatRef.current]. *)
Definition updateHeartbeat (seen : bool) (currentTime : Z)
           (lastHeartbeat : tsval) (m : Monitor) : Monitor * option bool :=
  match lastHeartbeat with
  | TNum t =>
      if truthy lastHeartbeat && gt_num lastHeartbeat (lastHeartbeatRef m)
      then checkHeartbeatStatus seen currentTime (setLastHeartbeat t m)
      else (m, None)
  | _ => (m, None)
  end.

(** The part of a snapshot of [greenhouses/{id}] the monitor reads:
    [data.status?.lastHeartbeat] and [data.lastUpdate]. *)
Record Snapshot : Type := mkSnapshot {
  status_lastHeartbeat : tsval;
  lastUpdate : tsval
}.

(** The [onValue] callback of the greenhouse subscription, as far as the
    monitor is concerned.  [None] is an empty snapshot ([!data]).
    [fallbackNow] is the [Date.now()] of the fallback expression,
    [currentTime] the one read by [checkHeartbeatStatus]. *)
Definition onEstufaValue (seen : bool) (fallbackNow currentTime : Z)
           (data : option Snapshot) (m : Monitor) : Monitor * option bool :=
  match data with
  | None => (setIsOnline false m, Some false)
  | Some d =>
      if truthy (status_lastHeartbeat d)
      then updateHeartbeat seen currentTime (status_lastHeartbeat d) m
      else
        let updateTime := js_or (lastUpdate d) (TNum fallbackNow) in
        updateHeartbeat seen currentTime updateTime m
  end.

(** *** The component around the monitor

    The effect with dependency list [[estufaId]] registers
    [setInterval(checkHeartbeatStatus, CHECK_INTERVAL)] and the subscription
    callback; both keep the closures of the render in which the effect was
    scheduled, so the [isOnline] they read is the state of that render.
    [forceStatusCheck] is attached to a button on every render and reads the
    current state. *)
Record Screen : Type := mkScreen {
  mon : Monitor;
  effectSees : option bool   (* [None]: no interval registered *)
}.

Definition initialScreen : Screen := mkScreen initialMonitor None.

(** The heartbeat effect for a non-null [estufaId]:
    [lastHeartbeatRef.current = Date.now(); setIsOnline(true);
     startHeartbeatMonitoring()]. *)
Definition startEffect (now : Z) (s : Screen) : Screen :=
  mkScreen (mkMonitor now true true) (Some (isOnline (mon s))).

(** One firing of the interval. *)
Definition tick (now : Z) (s : Screen) : Screen * option bool :=
  match effectSees s with
  | Some seen =>
      let '(m, p) := checkHeartbeatStatus seen now (mon s) in
      (mkScreen m (effectSees s), p)
  | None => (s, None)
  end.

(** The button handler. *)
Definition forceStatusCheck (now : Z) (s : Screen) : Screen * option bool :=
  let '(m, p) := checkHeartbeatStatus (isOnline (mon s)) now (mon s) in
  (mkScreen m (effectSees s), p).

(** A run of interval firings at the given times. *)
Fixpoint ticks (nows : list Z) (s : Screen) : Screen :=
  match nows with
  | [] => s
  | now :: rest => ticks rest (fst (tick now s))
  end.

(** A run of [updateHeartbeat] calls: each entry is the candidate timestamp
    and the clock at the time of the call. *)
Fixpoint recordSignals (seen : bool) (sigs : list (tsval * Z)) (m : Monitor)
  : Monitor :=
  match sigs with
  | [] => m
  | (v, now) :: rest =>
      recordSignals seen rest (fst (updateHeartbeat seen now v m))
  end.

(** The finite timestamps of a run. *)
Fixpoint finiteStamps (sigs : list (tsval * Z)) : list Z :=
  match sigs with
  | [] => []
  | (TNum t, _) :: rest => t :: finiteStamps rest
  | _ :: rest => finiteStamps rest
  end.

End Heartbeat.

(* ================================================================== *)
(** ** The simpler monitoring screen *)

Module SimpleMonitor.

(** [checkOnlineStatus]: [if (!lastHeartbeat) return false;
    return Date.now() - lastHeartbeat < 45000]. *)
Definition checkOnlineStatus (currentTime : Z) (lastHeartbeat : tsval) : bool :=
  if negb (truthy lastHeartbeat) then false
  else
    match lastHeartbeat with
    | TNum t => currentTime - t <? 45000
    | _ => false
    end.

End SimpleMonitor.

(* ================================================================== *)
(** ** JavaScript values of the history records *)

Local Open Scope Q_scope.

(** What a field of a record delivered by the store can hold, as far as the
    reducer distinguishes. *)
Inductive jsval : Type :=
| JUndefined
| JNull
| JNaN
| JNum (q : Q)
| JStr (s : string).

(** The result of a numeric coercion. *)
Inductive number : Type :=
| NaN
| Fin (q : Q).

Definition isNaN (n : number) : bool :=
  match n with NaN => true | Fin _ => false end.

(** [value != null]: false exactly for [null] and [undefined]. *)
Definition not_nullish (v : jsval) : bool :=
  match v with
  | JUndefined | JNull => false
  | _ => true
  end.

(** [Array.prototype.sort(comparefn)].  A comparator result of [NaN]
    ([None]) counts as [+0]; the sort is stable.  [x] moves behind [y]
    exactly when [comparefn(x, y) > 0]. *)
Section ArraySort.
Context {A : Type}.
Variable comparefn : A -> A -> option Z.

Definition sorts_after (x y : A) : bool :=
  match comparefn x y with
  | Some v => (0 <? v)%Z
  | None => false
  end.

Fixpoint sort_insert (x : A) (l : list A) : list A :=
  match l with
  | [] => [x]
  | y :: l' => if sorts_after x y then y :: sort_insert x l' else x :: l
  end.

Fixpoint Array_sort (l : list A) : list A :=
  match l with
  | [] => []
  | x :: l' => sort_insert x (Array_sort l')
  end.
End ArraySort.

(** Ascending order by an integer key that both elements have, and the
    elements that have one. *)
Definition keyLe {A : Type} (key : A -> option Z) (a b : A) : Prop :=
  match key a, key b with
  | Some ka, Some kb => (ka <= kb)%Z
  | _, _ => False
  end.

Definition hasKey {A : Type} (key : A -> option Z) (a : A) : Prop :=
  key a <> None.

(** [Math.min(...values)] and [Math.max(...values)] on a non-empty list of
    finite numbers (on the empty list the head default [d] is returned; the
    callers never pass it). *)
Definition Qmin2 (a b : Q) : Q := if Qle_bool a b then a else b.
Definition Qmax2 (a b : Q) : Q := if Qle_bool a b then b else a.

Definition Math_min (d : Q) (values : list Q) : Q :=
  match values with
  | [] => d
  | v :: vs => fold_left Qmin2 vs v
  end.

Definition Math_max (d : Q) (values : list Q) : Q :=
  match values with
  | [] => d
  | v :: vs => fold_left Qmax2 vs v
  end.

(** [Math.round]: the nearest integer, ties towards +infinity. *)
Definition Math_round (q : Q) : Z := Qfloor (q + (1 # 2)).

(** Decimal rendering of an integer, as [`${n}`] prints it. *)
Definition string_of_Z (z : Z) : string := NilZero.string_of_int (Z.to_int z).

(** [x.toFixed(1)] for a finite [x] below 1e21: sign, then the integer [n]
    nearest to [10 |x|] (the larger one on a tie) printed with one digit
    after the point. *)
Definition toFixed1 (x : Q) : string :=
  let neg := negb (Qle_bool 0 x) in
  let ax := if neg then - x else x in
  let n := Qfloor (ax * 10 + (1 # 2)) in
  ((if neg then "-" else "") ++
   string_of_Z (n / 10) ++ "." ++ string_of_Z (n mod 10))%string.

(* ================================================================== *)
(** ** Binary64 arithmetic

    A finite JavaScript number is a binary64 value: an integer multiple of
    a power of two, with a significand of 53 bits, or a multiple of
    [2^-1074] below [2^-1022].  [+], [-], [*] and [/] return the binary64
    value nearest to the exact result, the one with an even significand
    when two are equally near.  The two zeros are not told apart (the
    functions of the chart print them alike), and a result that reaches
    [2^1024], which the machine replaces by an infinity, is outside the
    model: the statements about the chart bound the readings so that none
    occurs. *)

Definition pow2 (z : Z) : Q := 2 ^ z.

(** The exponent of the binade of a positive number:
    [2^(ilog2 a) <= a < 2^(ilog2 a + 1)]. *)
Definition ilog2 (a : Q) : Z :=
  let k := (Z.log2 (Qnum a) - Z.log2 (Zpos (Qden a)))%Z in
  if Qle_bool (pow2 k) a then k else (k - 1)%Z.

(** The exponent of the spacing of the binary64 values around a positive
    number. *)
Definition ulp_exp (a : Q) : Z := Z.max (ilog2 a - 52) (-1074).

(** The nearest integer, the even one on a tie. *)
Definition rne (x : Q) : Z :=
  let f := Qfloor x in
  match Qcompare (x - inject_Z f) (1 # 2) with
  | Lt => f
  | Gt => (f + 1)%Z
  | Eq => if Z.even f then f else (f + 1)%Z
  end.

(** The nearest multiple of [2^u]. *)
Definition grid (u : Z) (x : Q) : Q := inject_Z (rne (x / pow2 u)) * pow2 u.

Definition round_pos (a : Q) : Q := grid (ulp_exp a) a.

(** The binary64 value nearest to a rational. *)
Definition round64 (q : Q) : Q :=
  let q := Qred q in
  match Qcompare q 0 with
  | Eq => 0
  | Gt => Qred (round_pos q)
  | Lt => Qred (- round_pos (- q))
  end.

(** The rationals that are binary64 values. *)
Definition is_double (q : Q) : Prop := round64 q == q.

(** The operators [+], [-], [*] and [/] on numbers ([/] for a divisor
    other than zero, the only use the chart makes of it). *)
Definition fadd (x y : Q) : Q := round64 (x + y).
Definition fsub (x y : Q) : Q := round64 (x - y).
Definition fmul (x y : Q) : Q := round64 (x * y).
Definition fdiv (x y : Q) : Q := round64 (x / y).

(** The literal [0.1]. *)
Definition tenth : Q := round64 (1 # 10).

(** A reading the statements about the chart cover: a binary64 value of
    magnitude at most [2^62]. *)
Definition reading (q : Q) : Prop := is_double q /\ Qabs q <= pow2 62.

(* ================================================================== *)
(** ** History reducer and chart engine of the richer screen *)

Module History.

(** The keys of [metricOptions]. *)
Inductive MetricKey : Type :=
| K_temperatura
| K_umidade
| K_luminosidade
| K_co2
| K_co.

Record HistoricoItem : Type := mkItem {
  co : jsval;
  co2 : jsval;
  dataHora : string;
  luminosidade : jsval;
  temperatura : jsval;
  timestamp : string;
  tvocs : jsval;
  umidade : jsval
}.

(** [item[selectedMetric.key]]. *)
Definition field (k : MetricKey) (item : HistoricoItem) : jsval :=
  match k with
  | K_temperatura => temperatura item
  | K_umidade => umidade item
  | K_luminosidade => luminosidade item
  | K_co2 => co2 item
  | K_co => co item
  end.

(** [{ ...data[key], timestamp: key }]. *)
Definition with_timestamp (key : string) (r : HistoricoItem) : HistoricoItem :=
  mkItem (co r) (co2 r) (dataHora r) (luminosidade r) (temperatura r)
         key (tvocs r) (umidade r).

Record ChartRange : Type := mkRange {
  min : Q;
  max : Q;
  current : Q;
  actualMin : Q;
  actualMax : Q
}.

Section Reducer.
(** [new Date(s).getTime()]: [None] is [NaN] (an invalid date). *)
Variable Date_getTime : string -> option Z.
(** The numeric coercion of a string ([Number(s)]). *)
Variable StringToNumber : string -> number.

(** [Number(value)]. *)
Definition Number (v : jsval) : number :=
  match v with
  | JUndefined => NaN
  | JNull => Fin 0
  | JNaN => NaN
  | JNum q => Fin q
  | JStr s => StringToNumber s
  end.

(** The comparator of the history sort:
    [new Date(a.dataHora).getTime() - new Date(b.dataHora).getTime()]. *)
Definition byDataHora (a b : HistoricoItem) : option Z :=
  match Date_getTime (dataHora a), Date_getTime (dataHora b) with
  | Some ta, Some tb => Some (ta - tb)%Z
  | _, _ => None
  end.

(** The [onValue] callback of [loadHistoricoFromFirebase]: the value
    stored by [setHistorico].  [data] lists the entries of the snapshot
    object in the order of [Object.keys]; [None] is an empty snapshot. *)
Definition loadHistorico (data : option (list (string * HistoricoItem)))
  : list HistoricoItem :=
  match data with
  | Some entries =>
      let historicoArray :=
        map (fun e => with_timestamp (fst e) (snd e)) entries in
      Array_sort byDataHora historicoArray
  | None => []
  end.

(** The predicate of the filter:
    [value != null && !isNaN(Number(value))]. *)
Definition keeps (k : MetricKey) (item : HistoricoItem) : bool :=
  let value := field k item in
  not_nullish value && negb (isNaN (Number value)).

Definition filteredHistorico (k : MetricKey) (historico : list HistoricoItem)
  : list HistoricoItem :=
  match historico with
  | [] => []
  | _ => filter (keeps k) historico
  end.

(** [Number(value) || 0]. *)
Definition number_or_zero (v : jsval) : number :=
  match Number v with
  | NaN => Fin 0
  | Fin q => Fin q
  end.

(** [.filter(v => !isNaN(v))] on the coerced values, giving the finite
    ones. *)
Fixpoint finite_values (l : list number) : list Q :=
  match l with
  | [] => []
  | NaN :: l' => finite_values l'
  | Fin q :: l' => q :: finite_values l'
  end.

Definition zeroRange : ChartRange := mkRange 0 0 0 0 0.

Definition chartValues (k : MetricKey) (filtered : list HistoricoItem)
  : list Q :=
  finite_values (map (fun item => number_or_zero (field k item)) filtered).

Definition chartRange (k : MetricKey) (filtered : list HistoricoItem)
  : ChartRange :=
  match filtered with
  | [] => zeroRange
  | _ =>
      let values := chartValues k filtered in
      match values with
      | [] => zeroRange
      | _ =>
          let mn := Math_min 0 values in
          let mx := Math_max 0 values in
          let cur := last values 0 in
          let range := fsub mx mn in
          let margin := fmul range tenth in
          mkRange (fsub mn margin) (fadd mx margin) cur mn mx
      end
  end.

(** [const steps = 4]. *)
Definition steps : nat := 4.



Definition formatAxis (k : MetricKey) (value : Q) : string :=
  match k with
  | K_temperatura => (toFixed1 value ++ "°C")%string
  | K_umidade => (string_of_Z (Math_round value) ++ "%")%string
  | K_luminosidade => (string_of_Z (Math_round value) ++ "LUX")%string
  | _ => (string_of_Z (Math_round value) ++ "PPM")%string
  end.


End Reducer.

End History.

(* ================================================================== *)
(** ** Actuator state derivation (estado_estufa.tsx, both variants) *)

Module Actuators.

(** The actuator fields the derivations read.  A field is [None] when it is
    absent from the snapshot (or [null]). *)
Record Atuadores : Type := mkAtuadores {
  rele1 : option bool;
  rele2 : option bool;
  rele3 : option bool;
  rele4 : option bool;
  umidificador : option bool
}.

Record EstufaData : Type := mkEstufaData {
  atuadores : option Atuadores
}.

Record Status : Type := mkStatus {
  label : string;
  color : string
}.

(** Truthiness of a relay field. *)
Definition Boolean (v : option bool) : bool :=
  match v with
  | Some true => true
  | _ => false
  end.

(** [a ?? b]. *)
Definition nullish_or (a b : option bool) : option bool :=
  match a with
  | Some _ => a
  | None => b
  end.

Definition placeholder : Status := mkStatus "--" "#ccc".
Definition climaOff : Status := mkStatus "OFF" "#d3d3d3".
Definition climaAquecendo : Status := mkStatus "Aquecendo" "#FFA500".
Definition climaResfriando : Status := mkStatus "Resfriando" "#B2F0F4".
Definition umidOn : Status := mkStatus "ON" "#00FF00".
Definition umidOff : Status := mkStatus "OFF" "#d3d3d3".

(** The earlier variant.  It reads [data.atuadores] without a guard, so an
    absent [atuadores] raises a [TypeError]: the result is [None] then. *)
Module Simple.

Definition climatizador (data : option EstufaData) : option Status :=
  match data with
  | None => Some placeholder
  | Some d =>
      match atuadores d with
      | None => None
      | Some a =>
          if negb (Boolean (rele1 a)) then Some climaOff
          else if Boolean (rele2 a) && Boolean (rele1 a) then Some climaAquecendo
          else Some climaResfriando
      end
  end.

Definition umidificador (data : option EstufaData) : option Status :=
  match data with
  | None => Some placeholder
  | Some d =>
      match atuadores d with
      | None => None
      | Some a =>
          let umidificadorState :=
            nullish_or (Actuators.umidificador a) (rele3 a) in
          if Boolean umidificadorState then Some umidOn else Some umidOff
      end
  end.

End Simple.

(** The documented variant: [if (!data?.atuadores) return placeholder]. *)
Module Rich.

Definition defaultAtuadores : Atuadores :=
  mkAtuadores (Some false) (Some false) (Some false) (Some false) (Some false).

(** One field of [{ ...defaultAtuadores, ...firebaseData.atuadores }]. *)
Definition spread_field (dflt fb : option bool) : option bool :=
  match fb with
  | Some _ => fb
  | None => dflt
  end.

(** The [atuadores] of [processedData] in the subscription callback. *)
Definition processAtuadores (fb : option Atuadores) : Atuadores :=
  match fb with
  | None => defaultAtuadores
  | Some a =>
      mkAtuadores
        (spread_field (rele1 defaultAtuadores) (rele1 a))
        (spread_field (rele2 defaultAtuadores) (rele2 a))
        (spread_field (rele3 defaultAtuadores) (rele3 a))
        (spread_field (rele4 defaultAtuadores) (rele4 a))
        (spread_field (Actuators.umidificador defaultAtuadores)
                      (Actuators.umidificador a))
  end.

Definition climatizador (data : option EstufaData) : Status :=
  match data with
  | Some (mkEstufaData (Some a)) =>
      let rele1State := Boolean (rele1 a) in
      let rele2State := Boolean (rele2 a) in
      if negb rele1State then climaOff
      else if rele2State && rele1State then climaAquecendo
      else climaResfriando
  | _ => placeholder
  end.

Definition umidificador (data : option EstufaData) : Status :=
  match data with
  | Some (mkEstufaData (Some a)) =>
      let umidificadorState :=
        nullish_or (Actuators.umidificador a) (rele3 a) in
      let state := Boolean umidificadorState in
      if state then umidOn else umidOff
  | _ => placeholder
  end.

End Rich.

End Actuators.

(* ================================================================== *)
(** ** Life cycle of the heartbeat interval (Monitoramento.tsx) *)

Module Lifecycle.
Import Heartbeat.
Local Open Scope Z_scope.

(** An interval registered with [setInterval]: the handle returned, and the
    [isOnline] in the scope of the callback it fires. *)
Record Interval : Type := mkInterval {
  handle : positive;
  sees : bool
}.

(** The component: the monitor, [heartbeatIntervalRef], the intervals the
    runtime still fires, and the next handle [setInterval] will return
    (handles are fresh and truthy). *)
Record Component : Type := mkComponent {
  monitor : Monitor;
  heartbeatIntervalRef : option positive;
  intervals : list Interval;
  nextHandle : positive
}.

Definition initialComponent : Component :=
  mkComponent initialMonitor None [] 1%positive.

Definition clearInterval (h : positive) (l : list Interval) : list Interval :=
  filter (fun i => negb (Pos.eqb (handle i) h)) l.

(** [startHeartbeatMonitoring], run from a render whose [isOnline] is
    [seen]. *)
Definition startHeartbeatMonitoring (seen : bool) (c : Component) : Component :=
  let cleared :=
    match heartbeatIntervalRef c with
    | Some h => clearInterval h (intervals c)
    | None => intervals c
    end in
  let h := nextHandle c in
  mkComponent (setInitialLoad true (monitor c)) (Some h)
              (mkInterval h seen :: cleared) (Pos.succ h).

Definition stopHeartbeatMonitoring (c : Component) : Component :=
  match heartbeatIntervalRef c with
  | Some h =>
      mkComponent (monitor c) None (clearInterval h (intervals c))
                  (nextHandle c)
  | None => c
  end.

(** A string-or-null that is truthy: not [null] and not empty. *)
Definition truthy_id (estufaId : option string) : bool :=
  match estufaId with
  | Some s => negb (String.eqb s "")
  | None => false
  end.

(** The body of the heartbeat effect (dependency list [[estufaId]]). *)
Definition heartbeatEffect (estufaId : option string) (now : Z)
           (c : Component) : Component :=
  if truthy_id estufaId then
    let seen := isOnline (monitor c) in
    let m := setIsOnline true (setLastHeartbeat now (monitor c)) in
    startHeartbeatMonitoring seen
      (mkComponent m (heartbeatIntervalRef c) (intervals c) (nextHandle c))
  else
    let c' := stopHeartbeatMonitoring c in
    mkComponent (setIsOnline false (monitor c')) (heartbeatIntervalRef c')
                (intervals c') (nextHandle c').

(** The runtime fires the interval with handle [h], if it is still
    registered. *)
Definition fire (h : positive) (now : Z) (c : Component) : Component :=
  match find (fun i => Pos.eqb (handle i) h) (intervals c) with
  | Some i =>
      mkComponent (fst (checkHeartbeatStatus (sees i) now (monitor c)))
                  (heartbeatIntervalRef c) (intervals c) (nextHandle c)
  | None => c
  end.

(** The subscription callback runs.  The subscription is made by an effect
    with the same dependency list, in the same commit as the interval, so
    its closure reads the same [isOnline]; there is none while no greenhouse
    is selected. *)
Definition push (data : option Snapshot) (fallbackNow now : Z)
           (c : Component) : Component :=
  match heartbeatIntervalRef c with
  | Some h =>
      match find (fun i => Pos.eqb (handle i) h) (intervals c) with
      | Some i =>
          mkComponent
            (fst (onEstufaValue (sees i) fallbackNow now data (monitor c)))
            (heartbeatIntervalRef c) (intervals c) (nextHandle c)
      | None => c
      end
  | None => c
  end.

(** What can happen to the component: the effect runs, a cleanup of the
    effect (or of the unmount effect) runs, an interval fires, a snapshot
    arrives. *)
Inductive Event : Type :=
| EffectRun (estufaId : option string) (now : Z)
| Cleanup
| Fire (h : positive) (now : Z)
| Push (data : option Snapshot) (fallbackNow now : Z).

Definition step (e : Event) (c : Component) : Component :=
  match e with
  | EffectRun estufaId now => heartbeatEffect estufaId now c
  | Cleanup => stopHeartbeatMonitoring c
  | Fire h now => fire h now c
  | Push data fallbackNow now => push data fallbackNow now c
  end.

(** The events that do not restart the monitor. *)
Definition keepsConnection (e : Event) : bool :=
  match e with
  | EffectRun _ _ => false
  | _ => true
  end.

(** The events that bring no empty snapshot. *)
Definition noEmptySnapshot (e : Event) : bool :=
  match e with
  | Push None _ _ => false
  | _ => true
  end.

Definition run (events : list Event) (c : Component) : Component :=
  fold_left (fun c e => step e c) events c.

(** Only the interval of [heartbeatIntervalRef], if any, is registered. *)
Definition tidy (c : Component) : Prop :=
  match heartbeatIntervalRef c with
  | Some h => exists s, intervals c = [mkInterval h s]
  | None => intervals c = []
  end.

End Lifecycle.

(* ================================================================== *)
(** ** Sensor cards and reservoir status of the monitoring screens *)

(** [x.toFixed(0)] for a number below 1e21. *)
Definition toFixed0 (x : Q) : string :=
  let neg := negb (Qle_bool 0 x) in
  let ax := if neg then - x else x in
  ((if neg then "-" else "") ++ string_of_Z (Qfloor (ax + (1 # 2))))%string.

Module Cards.

(** The keys of [SensorData]. *)
Inductive SensorKey : Type :=
| S_temperatura
| S_umidade
| S_luminosidade
| S_co2
| S_co
| S_tvocs
| S_agua.

Definition SensorKey_eqb (a b : SensorKey) : bool :=
  match a, b with
  | S_temperatura, S_temperatura | S_umidade, S_umidade
  | S_luminosidade, S_luminosidade | S_co2, S_co2 | S_co, S_co
  | S_tvocs, S_tvocs | S_agua, S_agua => true
  | _, _ => false
  end.

(** A sensor field: [None] when it is [undefined] or [null]. *)
Record SensorData : Type := mkSensorData {
  temperatura : option number;
  umidade : option number;
  luminosidade : option number;
  co2 : option number;
  co : option number;
  tvocs : option number;
  agua : option number
}.

Definition sensor (k : SensorKey) (s : SensorData) : option number :=
  match k with
  | S_temperatura => temperatura s
  | S_umidade => umidade s
  | S_luminosidade => luminosidade s
  | S_co2 => co2 s
  | S_co => co s
  | S_tvocs => tvocs s
  | S_agua => agua s
  end.

(** The snapshot as the monitoring screens store it: the sensors and the
    processed water level [niveis.agua]. *)
Record EstufaData : Type := mkEstufaData {
  sensores : option SensorData;
  niveis_agua : bool
}.

(** [data.niveis?.agua > 20] on the raw level. *)
Definition agua_acima (raw : option number) : bool :=
  match raw with
  | Some (Fin q) => negb (Qle_bool q 20)
  | _ => false
  end.

(** [processedData] of the subscription callback. *)
Definition processData (sens : option SensorData) (rawAgua : option number)
  : EstufaData :=
  mkEstufaData sens (agua_acima rawAgua).

Definition reservatorioStatus (estufaData : option EstufaData) : string :=
  match estufaData with
  | None => "Carregando..."
  | Some d => if niveis_agua d then "Com água" else "Sem água"
  end.

(** [value?.toFixed(d) ?? '--'] for [d] in 0, 1. *)
Definition fixedOrDashes (toFixed : Q -> string) (value : option number)
  : string :=
  match value with
  | None => "--"
  | Some NaN => "NaN"
  | Some (Fin q) => toFixed q
  end.

Record MetricOption : Type := mkMetric {
  key : SensorKey;
  label : string;
  unit : string;
  format : option number -> string
}.

Definition metricOptions : list MetricOption :=
  [ mkMetric S_temperatura "Temperatura" "°C"
      (fun value => (fixedOrDashes toFixed1 value ++ "°C")%string);
    mkMetric S_umidade "Umidade" "%"
      (fun value => (fixedOrDashes toFixed0 value ++ "%")%string);
    mkMetric S_luminosidade "Luminosidade" "LUX"
      (fun value => (fixedOrDashes toFixed0 value ++ " LUX")%string);
    mkMetric S_co2 "CO2" "PPM"
      (fun value => (fixedOrDashes toFixed0 value ++ " PPM")%string);
    mkMetric S_co "CO" "PPM"
      (fun value => (fixedOrDashes toFixed0 value ++ " PPM")%string) ].

Definition formatValue (k : SensorKey) (value : option number) : string :=
  match find (fun opt => SensorKey_eqb (key opt) k) metricOptions with
  | Some metric => format metric value
  | None => "--"
  end.

(** [getSensorValue] of the richer screen:
    [estufaData?.sensores?.[key]], or 0 when that is [undefined] or
    [null]. *)
Definition getSensorValue (estufaData : option EstufaData) (k : SensorKey)
  : number :=
  match estufaData with
  | Some d =>
      match sensores d with
      | Some s =>
          match sensor k s with
          | Some v => v
          | None => Fin 0
          end
      | None => Fin 0
      end
  | None => Fin 0
  end.

(** The reading [estufaData?.sensores?.[key]] is [undefined] or [null]. *)
Definition sensorMissing (estufaData : option EstufaData) (k : SensorKey)
  : Prop :=
  match estufaData with
  | Some d =>
      match sensores d with
      | Some s => sensor k s = None
      | None => True
      end
  | None => True
  end.

(** The text of a card of the richer screen:
    [formatValue(key, getSensorValue(key))]. *)
Definition richCard (estufaData : option EstufaData) (k : SensorKey) : string :=
  formatValue k (Some (getSensorValue estufaData k)).

(** The text of a card of the simpler screen, rendered only when
    [estufaData] is present: [formatValue(key, estufaData.sensores?.key)]. *)
Definition simpleCard (estufaData : EstufaData) (k : SensorKey) : string :=
  formatValue k
    match sensores estufaData with
    | Some s => sensor k s
    | None => None
    end.

End Cards.

(* ================================================================== *)
(** ** Chart data of the two monitoring screens *)

(** [list.map(f)] when [f] may throw ([None]): the first exception
    propagates. *)
Fixpoint map_throwing {A B : Type} (f : A -> option B) (l : list A)
  : option (list B) :=
  match l with
  | [] => Some []
  | x :: l' =>
      match f x with
      | None => None
      | Some y =>
          match map_throwing f l' with
          | None => None
          | Some ys => Some (y :: ys)
          end
      end
  end.

(** [n > k] for a number that may be [NaN] ([None]). *)
Definition gt_nan (n : option Z) (k : Z) : bool :=
  match n with
  | Some v => (k <? v)%Z
  | None => false
  end.

(** [list.slice(-n)]: the last [n] elements. *)
Definition slice_last {A : Type} (n : nat) (l : list A) : list A :=
  skipn (List.length l - n) l.

Module ChartData.
Import History.

(** The four patterns: ['HH:mm'], ['dd/MM'], ['EEE HH:mm'], ['HH:mm:ss']. *)
Inductive Pattern : Type :=
| P_HHmm
| P_ddMM
| P_EEE_HHmm
| P_HHmmss.

Record ChartDataT : Type := mkChartData {
  labels : list string;
  data : list number;
  totalWidth : Q
}.

Section DateFns.
(** The functions of date-fns the screen imports.  [format] throws a
    [RangeError] on an invalid date ([None]); the differences are [NaN]
    ([None]) when a date is invalid. *)
Variable Date : Type.
Variable parseISO : string -> Date.
Variable format : Date -> Pattern -> option string.
Variable differenceInHours : Date -> Date -> option Z.
Variable differenceInDays : Date -> Date -> option Z.
Variable StringToNumber : string -> number.
(** [Dimensions.get('window').width]. *)
Variable screenWidth : Q.

(** The pattern [formatSmartTime] applies to every timestamp. *)
Definition smartPattern (timestamps : list string) : Pattern :=
  match timestamps with
  | [] | [_] => P_HHmm
  | t0 :: _ =>
      let first := parseISO t0 in
      let last := parseISO (List.last timestamps t0) in
      let hoursDiff := differenceInHours last first in
      let daysDiff := differenceInDays last first in
      if gt_nan daysDiff 7 then P_ddMM
      else if gt_nan daysDiff 1 then P_EEE_HHmm
      else if gt_nan hoursDiff 12 then P_HHmm
      else P_HHmmss
  end.

Definition formatSmartTime (timestamps : list string) : option (list string) :=
  map_throwing (fun t => format (parseISO t) (smartPattern timestamps))
               timestamps.

(** [chartData]; [None] when [formatSmartTime] throws. *)
Definition chartData (k : MetricKey) (filtered : list HistoricoItem)
  : option ChartDataT :=
  match filtered with
  | [] => Some (mkChartData [] [] screenWidth)
  | _ =>
      let pointWidth := 60 in
      let totalWidth :=
        Qmax2 screenWidth
              (inject_Z (Z.of_nat (List.length filtered)) * pointWidth) in
      match formatSmartTime (map dataHora filtered) with
      | None => None
      | Some labels =>
          Some (mkChartData labels
                  (map (fun item => Number StringToNumber (field k item))
                       filtered)
                  totalWidth)
      end
  end.
End DateFns.

End ChartData.

Module SimpleChart.
Import History.

Record ChartDataT : Type := mkChartData {
  labels : list string;
  data : list jsval
}.

Section Prepare.
(** [parseInt(s)]: [None] is [NaN]. *)
Variable parseInt : string -> option Z.
(** [format(parseISO(s), 'HH:mm')] and
    [format(new Date(n), 'HH:mm')]: [None] when the call throws. *)
Variable formatISO : string -> option string.
Variable formatMillis : option Z -> option string.

(** [item[selectedMetric.key] !== undefined]. *)
Definition defined (k : MetricKey) (item : HistoricoItem) : bool :=
  match field k item with
  | JUndefined => false
  | _ => true
  end.

(** [parseInt(a.timestamp) - parseInt(b.timestamp)]. *)
Definition byTimestamp (a b : HistoricoItem) : option Z :=
  match parseInt (timestamp a), parseInt (timestamp b) with
  | Some ta, Some tb => Some (ta - tb)%Z
  | _, _ => None
  end.

(** The label of one point: the [try] block, with ['--:--'] from the
    [catch]. *)
Definition labelOf (item : HistoricoItem) : string :=
  let formatted :=
    if negb (String.eqb (dataHora item) "")
    then formatISO (dataHora item)
    else formatMillis (parseInt (timestamp item)) in
  match formatted with
  | Some s => s
  | None => "--:--"
  end.

(** The points kept: filtered, sorted, limited to 15. *)
Definition limitedData (k : MetricKey) (historicoArray : list HistoricoItem)
  : list HistoricoItem :=
  let filteredData :=
    Array_sort byTimestamp (filter (defined k) historicoArray) in
  slice_last 15 filteredData.

(** [prepareChartData]; [historicoData] lists [Object.values], [None] is a
    missing history. *)
Definition prepareChartData (k : MetricKey)
           (historicoData : option (list HistoricoItem)) : ChartDataT :=
  match historicoData with
  | None => mkChartData [] []
  | Some historicoArray =>
      let limited := limitedData k historicoArray in
      mkChartData (map labelOf limited) (map (field k) limited)
  end.
End Prepare.

End SimpleChart.

(* ================================================================== *)
(** ** The actuator screens: subscription callback, LEDs, exhaust fan *)

Module Panel.
Import Actuators.

(** The nested [leds] object; the wattage is taken to be an integer. *)
Record Leds : Type := mkLeds {
  ligado : option bool;
  watts : option Z
}.

(** [atuadores] of a snapshot: the relay fields and the nested [leds]. *)
Record FirebaseAtuadores : Type := mkFirebaseAtuadores {
  relays : Atuadores;
  leds : option Leds
}.

Record PanelData : Type := mkPanelData {
  atuadores : option FirebaseAtuadores
}.

(** The part of the data the relay derivations of [Actuators] read. *)
Definition relayView (data : option PanelData) : option EstufaData :=
  match data with
  | Some d => Some (mkEstufaData (option_map relays (atuadores d)))
  | None => None
  end.

Definition ledsOn (w : Z) : Status :=
  mkStatus (string_of_Z w ++ " W") "#E0B0FF".
Definition ledsOff : Status := mkStatus "OFF" "#d3d3d3".
Definition exaustorOn : Status := mkStatus "ON" "#00CED1".
Definition exaustorOff : Status := mkStatus "OFF" "#FF0000".

(** [watts ?? 0]. *)
Definition watts_or_zero (w : option Z) : Z :=
  match w with
  | Some v => v
  | None => 0%Z
  end.

(** The earlier variant: [setData(snap.val())], and derivations that read
    [data.atuadores] and [data.atuadores.leds] without a guard ([None]: a
    [TypeError]). *)
Module Simple.

Definition onValue (snap : option PanelData) : option PanelData := snap.

Definition leds (data : option PanelData) : option Status :=
  match data with
  | None => Some placeholder
  | Some d =>
      match atuadores d with
      | None => None
      | Some a =>
          match Panel.leds a with
          | None => None
          | Some l =>
              if Boolean (ligado l)
              then Some (ledsOn (watts_or_zero (watts l)))
              else Some ledsOff
          end
      end
  end.

Definition exaustor (data : option PanelData) : option Status :=
  match data with
  | None => Some placeholder
  | Some d =>
      match atuadores d with
      | None => None
      | Some a =>
          if Boolean (rele4 (relays a)) then Some exaustorOn
          else Some exaustorOff
      end
  end.

End Simple.

(** The documented variant. *)
Module Rich.

Definition defaultLeds : Leds := mkLeds (Some false) (Some 0%Z).

(** [{ ...defaultAtuadores.leds, ...(firebaseData.atuadores?.leds || {}) }]. *)
Definition processLeds (fb : option Leds) : Leds :=
  match fb with
  | None => defaultLeds
  | Some l =>
      mkLeds
        (match ligado l with Some _ => ligado l | None => ligado defaultLeds end)
        (match watts l with Some _ => watts l | None => watts defaultLeds end)
  end.

(** [processedData] of the subscription callback. *)
Definition processData (firebaseData : PanelData) : PanelData :=
  mkPanelData
    (Some (mkFirebaseAtuadores
             (Actuators.Rich.processAtuadores
                (option_map relays (atuadores firebaseData)))
             (Some (processLeds
                      match atuadores firebaseData with
                      | Some a => Panel.leds a
                      | None => None
                      end)))).

(** The callback: an empty snapshot sets the error and leaves [data]. *)
Definition onValue (snap : option PanelData) (data : option PanelData)
  : option PanelData :=
  match snap with
  | None => data
  | Some firebaseData => Some (processData firebaseData)
  end.

Definition leds (data : option PanelData) : Status :=
  match data with
  | Some (mkPanelData (Some (mkFirebaseAtuadores _ (Some l)))) =>
      let ligadoState := Boolean (ligado l) in
      if ligadoState then ledsOn (watts_or_zero (watts l)) else ledsOff
  | _ => placeholder
  end.

Definition exaustor (data : option PanelData) : Status :=
  match data with
  | Some (mkPanelData (Some a)) =>
      let exaustorState := Boolean (rele4 (relays a)) in
      if exaustorState then exaustorOn else exaustorOff
  | _ => placeholder
  end.

End Rich.

End Panel.

(* ================================================================== *)
(** ** The simpler monitoring screen: callback and interval *)

Module SimpleScreen.
Import SimpleMonitor.

(** The [onValue] callback: the value given to [setIsOnline].  [None] is an
    empty snapshot; otherwise the argument is [data.status?.lastHeartbeat]. *)
Definition onValue (now : Z) (data : option tsval) : bool :=
  match data with
  | None => false
  | Some lastHeartbeat =>
      if truthy lastHeartbeat then checkOnlineStatus now lastHeartbeat
      else false
  end.

(** One firing of the 10 s interval; [estufaData] is the stored snapshot's
    [status?.lastHeartbeat], [None] when no snapshot is stored. *)
Definition interval (now : Z) (estufaData : option tsval) (isOnline : bool)
  : bool :=
  match estufaData with
  | Some lastHeartbeat =>
      if truthy lastHeartbeat then checkOnlineStatus now lastHeartbeat
      else isOnline
  | None => isOnline
  end.

End SimpleScreen.

(* ================================================================== *)
(** ** Session service (AuthService.ts) and device resolution *)

Module Session.
Local Open Scope Z_scope.

Record SessionData : Type := mkSession {
  isLoggedIn : bool;
  userId : string;
  userEstufa : option string;
  timestamp : Z
}.

Record Credentials : Type := mkCredentials {
  email : string;
  password : string;
  rememberMe : bool;
  savedAt : Z
}.

(** What [JSON.parse] makes of a stored string: it throws ([Corrupt]) or
    gives back the value that was stringified. *)
Inductive Stored (A : Type) : Type :=
| Corrupt
| Json (a : A).
Arguments Corrupt {A}.
Arguments Json {A} a.

(** The device: the two AsyncStorage keys, the user signed in with
    Firebase Auth ([FIREBASE_AUTH.currentUser.uid]) and the [currentUser]
    field of each greenhouse in the database.  AsyncStorage calls are taken
    to succeed. *)
Record Device : Type := mkDevice {
  active_session : option (Stored SessionData);
  user_credentials : option (Stored Credentials);
  currentUser : option string;
  greenhouseUser : string -> option string
}.

Definition thirtyDays : Z := 30 * 24 * 60 * 60 * 1000.

(** [s || null] on an optional string. *)
Definition or_null (s : option string) : option string :=
  match s with
  | Some v => if String.eqb v "" then None else s
  | None => None
  end.

Definition saveActiveSession (uid : string) (estufaId : option string)
           (now : Z) (d : Device) : Device :=
  mkDevice (Some (Json (mkSession true uid (or_null estufaId) now)))
           (user_credentials d) (currentUser d) (greenhouseUser d).

Definition clearActiveSession (d : Device) : Device :=
  mkDevice None (user_credentials d) (currentUser d) (greenhouseUser d).

Definition clearCredentials (d : Device) : Device :=
  mkDevice (active_session d) None (currentUser d) (greenhouseUser d).

Definition checkActiveSession (now : Z) (d : Device)
  : option SessionData * Device :=
  match active_session d with
  | None => (None, d)
  | Some Corrupt => (None, clearActiveSession d)
  | Some (Json session) =>
      let sessionAge := now - timestamp session in
      if thirtyDays <? sessionAge then (None, clearActiveSession d)
      else
        match currentUser d with
        | None => (None, clearActiveSession d)
        | Some uid =>
            if negb (String.eqb uid (userId session))
            then (None, clearActiveSession d)
            else (Some session, d)
        end
  end.

(** [update(ref(db, `greenhouses/${id}`), { currentUser: null })]; the call
    may fail ([ok = false]), which the callers catch. *)
Definition releaseGreenhouse (ok : bool) (estufaId : string) (d : Device)
  : Device :=
  if ok then
    mkDevice (active_session d) (user_credentials d) (currentUser d)
             (fun id => if String.eqb id estufaId then None
                        else greenhouseUser d id)
  else d.

(** [leaveEstufa]: [checkNow] and [stampNow] are the two readings of
    [Date.now()]. *)
Definition leaveEstufa (estufaId : string) (checkNow stampNow : Z)
           (updateOk : bool) (d : Device) : Device :=
  let '(currentSession, d1) := checkActiveSession checkNow d in
  let d2 :=
    match currentSession with
    | Some session =>
        if isLoggedIn session then
          mkDevice
            (Some (Json (mkSession (isLoggedIn session) (userId session)
                                   None stampNow)))
            (user_credentials d1) (currentUser d1) (greenhouseUser d1)
        else d1
    | None => d1
    end in
  releaseGreenhouse updateOk estufaId d2.

(** [signOut(FIREBASE_AUTH)]; a failure is caught. *)
Definition signOut (ok : bool) (d : Device) : Device :=
  if ok then
    mkDevice (active_session d) (user_credentials d) None (greenhouseUser d)
  else d.

Definition logout (estufaId : option string) (updateOk signOutOk : bool)
           (d : Device) : Device :=
  let d1 :=
    match or_null estufaId with
    | Some id => releaseGreenhouse updateOk id d
    | None => d
    end in
  clearCredentials (clearActiveSession (signOut signOutOk d1)).

Definition saveCredentials (e p : string) (now : Z) (d : Device) : Device :=
  mkDevice (active_session d)
           (Some (Json (mkCredentials e p true now)))
           (currentUser d) (greenhouseUser d).

Definition getSavedCredentials (d : Device) : option Credentials :=
  match user_credentials d with
  | Some (Json c) => Some c
  | _ => None
  end.

(** Device resolution of the richer monitoring screen ([useFocusEffect]):
    the route parameter, or else the greenhouse of the active session. *)
Inductive Resolution : Type :=
| Resolved (estufaId : string)
| NoEstufa (message : string).

Definition resolveEstufa (routeParam : option string) (now : Z) (d : Device)
  : Resolution * Device :=
  match or_null routeParam with
  | Some id => (Resolved id, d)
  | None =>
      let '(session, d') := checkActiveSession now d in
      match session with
      | Some s =>
          match or_null (userEstufa s) with
          | Some id => (Resolved id, d')
          | None =>
              (NoEstufa
                 "Nenhuma estufa conectada. Por favor, conecte-se a uma estufa.",
               d')
          end
      | None =>
          (NoEstufa
             "Nenhuma estufa conectada. Por favor, conecte-se a uma estufa.",
           d')
      end
  end.

End Session.
(* ================================================================== *)
(** * Properties of the richer heartbeat monitor *)

Section HeartbeatFacts.
Import Heartbeat.
Import SimpleMonitor.
Local Open Scope Z_scope.

(** Case analysis on the integer tests of the monitor. *)
Ltac ztests :=
  repeat match goal with
         | H : context [(_ >=? _)] |- _ => rewrite Z.geb_leb in H
         | |- context [(_ >=? _)] => rewrite Z.geb_leb
         | H : context [(?a <? ?b)] |- _ => destruct (Z.ltb_spec a b)
         | |- context [(?a <? ?b)] => destruct (Z.ltb_spec a b)
         | H : context [(?a <=? ?b)] |- _ => destruct (Z.leb_spec a b)
         | |- context [(?a <=? ?b)] => destruct (Z.leb_spec a b)
         | H : context [(?a =? ?b)] |- _ => destruct (Z.eqb_spec a b)
         | |- context [(?a =? ?b)] => destruct (Z.eqb_spec a b)
         end.

Ltac unfold_monitor :=
  unfold checkHeartbeatStatus, setIsOnline, setInitialLoad, setLastHeartbeat,
    HEARTBEAT_TIMEOUT, INITIAL_GRACE_PERIOD in *; cbn [lastHeartbeatRef
    initialLoadRef isOnline fst snd] in *.

(** Inside the grace window the evaluation always calls [setIsOnline(true)]. *)
Lemma check_in_grace seen now m :
  initialLoadRef m = true ->
  now - lastHeartbeatRef m < INITIAL_GRACE_PERIOD ->
  checkHeartbeatStatus seen now m = (setIsOnline true m, Some true).
Proof.
  intros Hload Hlt. unfold_monitor. rewrite Hload. cbn.
  ztests; try lia. reflexivity.
Qed.

(** An evaluation never touches [lastHeartbeatRef]. *)
Lemma check_keeps_last seen now m :
  lastHeartbeatRef (fst (checkHeartbeatStatus seen now m)) = lastHeartbeatRef m.
Proof.
  unfold_monitor.
  destruct (initialLoadRef m), seen; cbn; ztests; cbn; reflexivity.
Qed.

(** What an evaluation leaves in the state [isOnline]: it is online when the
    elapsed time is below the timeout and the closure read [false] or the
    state was already [true]. *)
Lemma check_online_below_timeout seen now m :
  isOnline m = true ->
  now - lastHeartbeatRef m < HEARTBEAT_TIMEOUT ->
  isOnline (fst (checkHeartbeatStatus seen now m)) = true.
Proof.
  intros Hon Hlt. unfold_monitor.
  destruct (initialLoadRef m), seen; cbn; ztests; cbn; try lia; auto.
Qed.

(** An evaluation that reads the current state reports offline once the
    timeout has passed and the grace window is over. *)
Lemma check_fresh_offline now m :
  INITIAL_GRACE_PERIOD <= now - lastHeartbeatRef m ->
  HEARTBEAT_TIMEOUT <= now - lastHeartbeatRef m ->
  isOnline (fst (checkHeartbeatStatus (isOnline m) now m)) = false.
Proof.
  intros Hg Ht. unfold_monitor.
  destruct (initialLoadRef m), (isOnline m) eqn:E; cbn; ztests; cbn;
    try lia; auto.
Qed.

(** The state of the screen during a run of interval firings that all fall
    before the timeout: nothing but [initialLoadRef] changes. *)
Lemma ticks_before_timeout nows : forall s t0 c,
  lastHeartbeatRef (mon s) = t0 ->
  isOnline (mon s) = true ->
  effectSees s = Some c ->
  Forall (fun now => now - t0 < HEARTBEAT_TIMEOUT) nows ->
  let s' := ticks nows s in
  lastHeartbeatRef (mon s') = t0 /\ isOnline (mon s') = true /\
  effectSees s' = Some c.
Proof.
  induction nows as [|now rest IH]; intros s t0 c Hl Ho He Hall; cbn.
  - auto.
  - inversion Hall as [|? ? Hnow Hrest]; subst.
    apply IH; auto; unfold tick; rewrite He;
      destruct (checkHeartbeatStatus c now (mon s)) as [m p] eqn:E; cbn.
    + pose proof (check_keeps_last c now (mon s)) as K.
      rewrite E in K. exact K.
    + pose proof (check_online_below_timeout c now (mon s) Ho Hnow) as K.
      rewrite E in K. exact K.
    + reflexivity.
Qed.

(** After [startEffect] and with no signal, every interval firing before the
    timeout, inside or outside the grace window, leaves the screen online. *)
Lemma start_online_before_timeout s t0 nows :
  Forall (fun now => now - t0 < HEARTBEAT_TIMEOUT) nows ->
  isOnline (mon (ticks nows (startEffect t0 s))) = true.
Proof.
  intros Hall.
  apply (ticks_before_timeout nows (startEffect t0 s) t0 (isOnline (mon s)));
    auto.
Qed.

(** The button handler, which reads the current state, reports offline once
    the timeout has passed. *)
Lemma start_force_offline s t0 now :
  HEARTBEAT_TIMEOUT <= now - t0 ->
  isOnline (mon (fst (forceStatusCheck now (startEffect t0 s)))) = false.
Proof.
  intros Ht. unfold forceStatusCheck.
  destruct (checkHeartbeatStatus _ now _) as [m p] eqn:E. cbn.
  pose proof (check_fresh_offline now (mon (startEffect t0 s))) as K.
  cbn [startEffect mon isOnline lastHeartbeatRef] in K, E.
  rewrite E in K. apply K; unfold HEARTBEAT_TIMEOUT, INITIAL_GRACE_PERIOD in *;
    lia.
Qed.

(** With the [isOnline] of the mounting render, [false], in its scope, an
    evaluation never turns an online state offline. *)
Lemma check_stale_keeps_online now m :
  isOnline m = true ->
  isOnline (fst (checkHeartbeatStatus false now m)) = true.
Proof.
  intros Hon. unfold_monitor.
  destruct (initialLoadRef m); cbn; ztests; cbn; auto.
Qed.

(** After the mount, no run of interval firings, at any times, takes the
    screen offline. *)
Lemma mounted_interval_always_online t0 nows :
  isOnline (mon (ticks nows (startEffect t0 initialScreen))) = true.
Proof.
  assert (G : forall s,
             effectSees s = Some false -> isOnline (mon s) = true ->
             isOnline (mon (ticks nows s)) = true).
  { induction nows as [|now rest IH]; intros s He Ho; cbn; [exact Ho|].
    apply IH; unfold tick; rewrite He;
      destruct (checkHeartbeatStatus false now (mon s)) as [m p] eqn:E; cbn.
    - reflexivity.
    - pose proof (check_stale_keeps_online now (mon s) Ho) as K.
      rewrite E in K. exact K. }
  apply G; reflexivity.
Qed.

(** C1 (evaluation at the failing input).  The screen is mounted
    ([isOnline] is [false], the initial state), the heartbeat effect starts
    the monitor at [t0] and registers the interval, and no signal arrives.
    An interval firing at [now] with [now - t0 >= 25000] reads the [isOnline]
    of the render that registered it, which is [false]; the computed value
    is [false] as well, so [setIsOnline] is not called and the state stays
    [true], where the header of the file documents OFFLINE after 25 s. *)
Theorem C1_interval_never_reports_offline (t0 now : Z) :
  HEARTBEAT_TIMEOUT <= now - t0 ->
  let s := startEffect t0 initialScreen in
  isOnline (mon s) = true /\
  snd (tick now s) = None /\
  isOnline (mon (fst (tick now s))) = true.
Proof.
  intros Ht. cbn. unfold tick. cbn [effectSees startEffect mon initialScreen
    initialMonitor isOnline]. unfold_monitor. cbn.
  ztests; cbn; try lia; auto.
Qed.

Lemma C1_interval_never_reports_offline_witness :
  HEARTBEAT_TIMEOUT <= 27000 - 1000 /\
  (let s := startEffect 1000 initialScreen in
   isOnline (mon s) = true /\
   snd (tick 27000 s) = None /\
   isOnline (mon (fst (tick 27000 s))) = true).
Proof.
  split.
  - unfold HEARTBEAT_TIMEOUT. lia.
  - apply (C1_interval_never_reports_offline 1000 27000).
    unfold HEARTBEAT_TIMEOUT. lia.
Defined.

(** A rejected or absent candidate leaves everything as it was. *)
Lemma update_rejects seen now v m :
  truthy v && gt_num v (lastHeartbeatRef m) = false ->
  updateHeartbeat seen now v m = (m, None).
Proof.
  intros H. unfold updateHeartbeat. destruct v; auto. rewrite H. reflexivity.
Qed.

(** An accepted candidate becomes the new [lastHeartbeatRef]. *)
Lemma update_accepts seen now t m :
  t <> 0 -> lastHeartbeatRef m < t ->
  lastHeartbeatRef (fst (updateHeartbeat seen now (TNum t) m)) = t.
Proof.
  intros Hnz Hlt. unfold updateHeartbeat, truthy, gt_num.
  ztests; try lia. cbn [negb andb].
  rewrite check_keeps_last. reflexivity.
Qed.

(** One call moves [lastHeartbeatRef] to the larger of the two values, when
    the stored value is not negative. *)
Lemma update_last_max seen now v m :
  0 <= lastHeartbeatRef m ->
  lastHeartbeatRef (fst (updateHeartbeat seen now v m)) =
  match v with
  | TNum t => Z.max (lastHeartbeatRef m) t
  | _ => lastHeartbeatRef m
  end.
Proof.
  intros Hpos. destruct v as [| |t]; try reflexivity.
  destruct (Z.ltb_spec (lastHeartbeatRef m) t) as [Hlt|Hge].
  - rewrite update_accepts by lia. lia.
  - rewrite update_rejects.
    + cbn. lia.
    + unfold gt_num.
      destruct (Z.ltb_spec (lastHeartbeatRef m) t); [lia | apply andb_false_r].
Qed.

Lemma update_last_le seen now v m :
  lastHeartbeatRef m <= lastHeartbeatRef (fst (updateHeartbeat seen now v m)).
Proof.
  unfold updateHeartbeat. destruct v as [| |t]; cbn [fst]; try lia.
  destruct (truthy (TNum t) && gt_num (TNum t) (lastHeartbeatRef m)) eqn:E.
  - rewrite check_keeps_last. cbn.
    apply andb_prop in E. destruct E as [_ E]. unfold gt_num in E.
    apply Z.ltb_lt in E. lia.
  - cbn. lia.
Qed.

Lemma recordSignals_last_le seen sigs : forall m,
  lastHeartbeatRef m <= lastHeartbeatRef (recordSignals seen sigs m).
Proof.
  induction sigs as [|[v now] rest IH]; intros m; cbn.
  - lia.
  - etransitivity; [apply (update_last_le seen now v m) | apply IH].
Qed.

Lemma recordSignals_last_max seen sigs : forall m,
  0 <= lastHeartbeatRef m ->
  lastHeartbeatRef (recordSignals seen sigs m) =
  fold_left Z.max (finiteStamps sigs) (lastHeartbeatRef m).
Proof.
  induction sigs as [|[v now] rest IH]; intros m Hpos; cbn.
  - reflexivity.
  - rewrite IH.
    + rewrite update_last_max by assumption. destruct v; reflexivity.
    + pose proof (update_last_le seen now v m). lia.
Qed.

Lemma last_cons_default {A : Type} (l : list A) : forall a b,
  List.last (b :: l) a = List.last l b.
Proof.
  induction l as [|z l IH]; intros a b.
  - reflexivity.
  - change (List.last (b :: z :: l) a) with (List.last (z :: l) a).
    rewrite (IH a z), (IH b z). reflexivity.
Qed.

(** The largest element of a non-decreasing list is its last one. *)
Lemma fold_max_sorted (l : list Z) : forall a,
  Sorted Z.le (a :: l) -> fold_left Z.max l a = List.last l a.
Proof.
  induction l as [|b l IH]; intros a Hs; cbn [fold_left].
  - reflexivity.
  - inversion Hs as [|? ? Hs' Hhd]; subst. inversion Hhd; subst.
    replace (Z.max a b) with b by lia. rewrite IH by assumption.
    symmetry. apply last_cons_default.
Qed.

(** C2.  For the calls of [updateHeartbeat] on a monitor whose stored
    timestamp is not negative: a candidate strictly greater than
    [lastHeartbeatRef] becomes the new [lastHeartbeatRef]; a candidate less
    than or equal to it changes nothing and publishes nothing; over any run
    of calls [lastHeartbeatRef] never decreases and ends at the maximum of
    its initial value and the timestamps seen; for a non-decreasing run that
    starts at or above the initial value it ends at the last timestamp. *)
Theorem C2_lastHeartbeat_monotone (seen : bool) (m : Monitor) :
  0 <= lastHeartbeatRef m ->
  (forall now t, lastHeartbeatRef m < t ->
     lastHeartbeatRef (fst (updateHeartbeat seen now (TNum t) m)) = t) /\
  (forall now t, t <= lastHeartbeatRef m ->
     updateHeartbeat seen now (TNum t) m = (m, None)) /\
  (forall sigs,
     lastHeartbeatRef m <= lastHeartbeatRef (recordSignals seen sigs m)) /\
  (forall sigs,
     lastHeartbeatRef (recordSignals seen sigs m) =
     fold_left Z.max (finiteStamps sigs) (lastHeartbeatRef m)) /\
  (forall sigs,
     Sorted Z.le (lastHeartbeatRef m :: finiteStamps sigs) ->
     lastHeartbeatRef (recordSignals seen sigs m) =
     List.last (finiteStamps sigs) (lastHeartbeatRef m)).
Proof.
  intros Hpos. repeat split.
  - intros now t Hlt. apply update_accepts; lia.
  - intros now t Hle. apply update_rejects. unfold gt_num.
    destruct (Z.ltb_spec (lastHeartbeatRef m) t); [lia | apply andb_false_r].
  - intros sigs. apply recordSignals_last_le.
  - intros sigs. apply recordSignals_last_max; assumption.
  - intros sigs Hs. rewrite recordSignals_last_max by assumption.
    apply fold_max_sorted; assumption.
Qed.

Lemma C2_lastHeartbeat_monotone_witness :
  lastHeartbeatRef
    (recordSignals false
       [(TNum 2000, 2100); (TNum 1500, 2200); (TNaN, 2300); (TNum 3000, 3100)]
       (mkMonitor 1000 true true)) = 3000.
Proof.
  assert (H : 0 <= lastHeartbeatRef (mkMonitor 1000 true true)) by (cbn; lia).
  destruct (C2_lastHeartbeat_monotone false (mkMonitor 1000 true true) H)
    as (_ & _ & _ & Hmax & _).
  rewrite Hmax. reflexivity.
Defined.

(** C3.  The online check of the simpler screen answers [true] exactly
    when the recorded heartbeat is a non-zero number and less than 45000 ms
    old; it has no other input, so no grace window.  The richer screen uses
    the timeout 25000 ms: after its grace window, an evaluation that reads
    the current state leaves [isOnline] equal to [elapsed < 25000].  For a
    heartbeat between 25000 and 45000 ms old the two screens disagree. *)
Theorem C3_two_offline_tolerances :
  (forall now v,
     checkOnlineStatus now v = true <->
     exists t, v = TNum t /\ t <> 0 /\ now - t < 45000) /\
  HEARTBEAT_TIMEOUT = 25000 /\
  (forall now m,
     INITIAL_GRACE_PERIOD <= now - lastHeartbeatRef m ->
     isOnline (fst (checkHeartbeatStatus (isOnline m) now m)) =
     (now - lastHeartbeatRef m <? 25000)) /\
  (forall now m,
     lastHeartbeatRef m <> 0 ->
     25000 <= now - lastHeartbeatRef m < 45000 ->
     checkOnlineStatus now (TNum (lastHeartbeatRef m)) = true /\
     isOnline (fst (checkHeartbeatStatus (isOnline m) now m)) = false).
Proof.
  split; [|split; [reflexivity|split]].
  - intros now v. split.
    + unfold checkOnlineStatus, truthy.
      destruct v as [| |t]; cbn; try discriminate.
      intros H. exists t. ztests; cbn in *; try discriminate.
      repeat split; auto.
    + intros (t & -> & Hnz & Hlt). unfold checkOnlineStatus, truthy.
      ztests; cbn; try lia; reflexivity.
  - intros now m Hg. unfold_monitor.
    destruct (initialLoadRef m), (isOnline m) eqn:E; cbn; ztests; cbn;
      try lia; auto.
  - intros now m Hnz Hrange. split.
    + unfold checkOnlineStatus, truthy. ztests; cbn; try lia; reflexivity.
    + apply check_fresh_offline;
        unfold HEARTBEAT_TIMEOUT, INITIAL_GRACE_PERIOD; lia.
Qed.

(** C4.  What observers are shown is the state [isOnline]; an evaluation
    publishes to them when it changes that state, and a call of
    [setIsOnline] with the value the state already has changes nothing.  The
    value an evaluation computes is [true] inside the grace window and
    [elapsed < 25000] outside it.  For every evaluation, whatever state its
    closure reads: the state changes only when the computed value differs
    from the state, and then becomes the computed value; when the computed
    value is the state, the state stays.  [setIsOnline] is called with
    [true] inside the grace window, and outside it exactly when the computed
    value differs from the state the closure reads, with that value; the
    state after the evaluation is the argument of the call, or the old state
    when there is no call. *)
Theorem C4_publishes_only_changes (seen : bool) (now : Z) (m : Monitor) :
  let elapsed := now - lastHeartbeatRef m in
  let inGrace := initialLoadRef m && (elapsed <? INITIAL_GRACE_PERIOD) in
  let computed := if inGrace then true else elapsed <? HEARTBEAT_TIMEOUT in
  let r := checkHeartbeatStatus seen now m in
  (isOnline (fst r) <> isOnline m ->
     computed <> isOnline m /\ isOnline (fst r) = computed) /\
  (computed = isOnline m -> isOnline (fst r) = isOnline m) /\
  snd r = (if inGrace then Some true
           else if Bool.eqb seen computed then None else Some computed) /\
  isOnline (fst r) = match snd r with Some b => b | None => isOnline m end.
Proof.
  cbv zeta. unfold checkHeartbeatStatus.
  destruct (initialLoadRef m && (now - lastHeartbeatRef m <? INITIAL_GRACE_PERIOD))
    eqn:G.
  - cbn [fst snd setIsOnline isOnline].
    destruct (isOnline m); repeat split; congruence.
  - destruct (initialLoadRef m && (now - lastHeartbeatRef m >=? INITIAL_GRACE_PERIOD));
      destruct seen, (now - lastHeartbeatRef m <? HEARTBEAT_TIMEOUT),
        (isOnline m) eqn:E;
      cbn [Bool.eqb negb fst snd setIsOnline setInitialLoad isOnline];
      rewrite ?E; repeat split; congruence.
Qed.

(** C9 (counterexample).  A snapshot without [status.lastHeartbeat] and
    without [lastUpdate] is not treated as the absence of a signal: the
    callback records the current time. *)
Lemma C9_missing_heartbeat_moves_lastHeartbeat :
  ~ (forall seen fallbackNow now d m,
       truthy (status_lastHeartbeat d) = false ->
       lastHeartbeatRef (fst (onEstufaValue seen fallbackNow now (Some d) m)) =
       lastHeartbeatRef m).
Proof.
  intros H.
  specialize (H false 5000 5000 (mkSnapshot TUndefined TUndefined)
                (mkMonitor 1000 false true) eq_refl).
  vm_compute in H. discriminate H.
Qed.

(** C9 (amended).  [updateHeartbeat] and the subscription callback are
    total.  [updateHeartbeat] leaves the monitor unchanged and publishes
    nothing for a candidate that is [undefined], [NaN], zero or not greater
    than [lastHeartbeatRef].  The subscription callback, when
    [status.lastHeartbeat] is absent, [NaN] or zero, passes [lastUpdate] to
    [updateHeartbeat] instead, or the current time when [lastUpdate] is
    absent, [NaN] or zero as well; with no usable [lastUpdate] and a clock
    ahead of [lastHeartbeatRef], [lastHeartbeatRef] becomes the current
    time.  [lastHeartbeatRef] never decreases. *)
Theorem C9_malformed_signal_handling (seen : bool) (now : Z) (m : Monitor) :
  (forall v, truthy v = false -> updateHeartbeat seen now v m = (m, None)) /\
  (forall v, gt_num v (lastHeartbeatRef m) = false ->
     updateHeartbeat seen now v m = (m, None)) /\
  (forall fallbackNow d,
     truthy (status_lastHeartbeat d) = false ->
     onEstufaValue seen fallbackNow now (Some d) m =
     updateHeartbeat seen now (js_or (lastUpdate d) (TNum fallbackNow)) m) /\
  (forall fallbackNow d,
     truthy (status_lastHeartbeat d) = false ->
     truthy (lastUpdate d) = false ->
     fallbackNow <> 0 -> lastHeartbeatRef m < fallbackNow ->
     lastHeartbeatRef (fst (onEstufaValue seen fallbackNow now (Some d) m)) =
     fallbackNow) /\
  (forall fallbackNow data,
     lastHeartbeatRef m <=
     lastHeartbeatRef (fst (onEstufaValue seen fallbackNow now data m))).
Proof.
  repeat split.
  - intros v Hv. apply update_rejects. rewrite Hv. reflexivity.
  - intros v Hv. apply update_rejects. rewrite Hv. apply andb_false_r.
  - intros fb d Hd. unfold onEstufaValue. rewrite Hd. reflexivity.
  - intros fb d Hd Hu Hnz Hlt. unfold onEstufaValue, js_or. rewrite Hd, Hu.
    apply update_accepts; assumption.
  - intros fb data. unfold onEstufaValue. destruct data as [d|].
    + destruct (truthy (status_lastHeartbeat d)); apply update_last_le.
    + cbn. lia.
Qed.

Lemma C3_two_offline_tolerances_witness :
  checkOnlineStatus 31000 (TNum 1000) = true /\
  isOnline (fst (checkHeartbeatStatus true 31000 (mkMonitor 1000 false true)))
  = false.
Proof.
  apply (proj2 (proj2 (proj2 C3_two_offline_tolerances)) 31000
               (mkMonitor 1000 false true)); cbn; lia.
Defined.

(** C4 on concrete evaluations.  The state is [true] and the closure of the
    interval reads [false]: after the grace window with a fresh signal the
    closure calls [setIsOnline(true)] and the state stays [true]; with a
    stale signal it computes [false], makes no call, and the state stays
    [true]. *)
Lemma C4_publishes_only_changes_witness :
  checkHeartbeatStatus false 12000 (mkMonitor 1000 true true) =
  (mkMonitor 1000 false true, Some true) /\
  isOnline (fst (checkHeartbeatStatus false 12000 (mkMonitor 1000 true true)))
  = true /\
  snd (checkHeartbeatStatus false 27000 (mkMonitor 1000 false true)) = None.
Proof.
  split; [reflexivity|]. split.
  - apply (proj1 (proj2 (C4_publishes_only_changes false 12000
                           (mkMonitor 1000 true true)))).
    reflexivity.
  - apply (proj1 (proj2 (proj2 (C4_publishes_only_changes false 27000
                                  (mkMonitor 1000 false true))))).
Defined.

Lemma C9_malformed_signal_handling_witness :
  updateHeartbeat true 9000 TNaN (mkMonitor 1000 false true) =
  (mkMonitor 1000 false true, None) /\
  lastHeartbeatRef
    (fst (onEstufaValue true 9000 9001
            (Some (mkSnapshot (TNum 0) TUndefined))
            (mkMonitor 1000 false true))) = 9000.
Proof.
  destruct (C9_malformed_signal_handling true 9000 (mkMonitor 1000 false true))
    as (Hfalsy & _ & _ & _ & _).
  destruct (C9_malformed_signal_handling true 9001 (mkMonitor 1000 false true))
    as (_ & _ & _ & Hfallback & _).
  split.
  - apply Hfalsy. reflexivity.
  - apply Hfallback; cbn; try reflexivity; lia.
Defined.

End HeartbeatFacts.

(* ================================================================== *)
(** * Properties of [Array.prototype.sort] as modelled *)

Section ArraySortFacts.
Context {A : Type}.
Variable comparefn : A -> A -> option Z.

Lemma sort_insert_perm x l :
  Permutation (sort_insert comparefn x l) (x :: l).
Proof.
  induction l as [|y l IH]; cbn.
  - apply Permutation_refl.
  - destruct (sorts_after comparefn x y).
    + eapply perm_trans; [apply perm_skip, IH | apply perm_swap].
    + apply Permutation_refl.
Qed.

Lemma Array_sort_perm l : Permutation (Array_sort comparefn l) l.
Proof.
  induction l as [|x l IH]; cbn.
  - apply perm_nil.
  - eapply perm_trans; [apply sort_insert_perm | apply perm_skip, IH].
Qed.

(** The comparator is the difference of an integer key, on elements that
    all have one. *)
Variable key : A -> option Z.
Hypothesis comparefn_key : forall a b,
  comparefn a b =
  match key a, key b with
  | Some ka, Some kb => Some (ka - kb)%Z
  | _, _ => None
  end.

Local Abbreviation keyLe := (keyLe key).
Local Abbreviation hasKey := (hasKey key).

Lemma keyLe_trans a b c : keyLe a b -> keyLe b c -> keyLe a c.
Proof.
  unfold keyLe. destruct (key a), (key b), (key c); intros; try tauto; lia.
Qed.

Lemma sort_insert_sorted x l :
  hasKey x -> Forall hasKey l ->
  StronglySorted keyLe l -> StronglySorted keyLe (sort_insert comparefn x l).
Proof.
  intros Hx Hl Hs. induction Hs as [|y l Hs IH Hy]; cbn.
  - constructor; constructor.
  - inversion Hl as [|? ? Hky Hl']; subst.
    unfold sorts_after. rewrite comparefn_key.
    unfold hasKey in Hx, Hky.
    destruct (key x) as [kx|] eqn:Ex; [|congruence].
    destruct (key y) as [ky|] eqn:Ey; [|congruence].
    destruct (Z.ltb_spec 0 (kx - ky)) as [Hgt|Hle].
    + constructor; [apply IH; assumption|].
      apply (Permutation_Forall (Permutation_sym (sort_insert_perm x l))).
      constructor; [|assumption].
      unfold keyLe. rewrite Ex, Ey. lia.
    + assert (Hxy : keyLe x y) by (unfold keyLe; rewrite Ex, Ey; lia).
      constructor; [constructor; assumption|].
      constructor; [assumption|].
      eapply Forall_impl; [|exact Hy].
      intros z Hz. eapply keyLe_trans; eassumption.
Qed.

Lemma Array_sort_sorted l :
  Forall hasKey l -> StronglySorted keyLe (Array_sort comparefn l).
Proof.
  induction l as [|x l IH]; intros Hl; cbn.
  - constructor.
  - inversion Hl; subst. apply sort_insert_sorted; auto.
    apply (Permutation_Forall (Permutation_sym (Array_sort_perm l))).
    assumption.
Qed.

Lemma filter_sorted (f : A -> bool) l :
  StronglySorted keyLe l -> StronglySorted keyLe (filter f l).
Proof.
  induction 1 as [|x l Hs IH Hx]; cbn.
  - constructor.
  - destruct (f x); [|assumption].
    constructor; [assumption|].
    apply Forall_forall. intros z Hz. apply filter_In in Hz.
    rewrite Forall_forall in Hx. apply Hx. tauto.
Qed.
End ArraySortFacts.

(* ================================================================== *)
(** * Properties of the history reducer and of the chart engine *)

Section HistoryFacts.
Import History.
Local Open Scope Q_scope.

Variable Date_getTime : string -> option Z.
Variable StringToNumber : string -> number.

(** The parsed capture time of a record. *)
Local Abbreviation timeOf := (fun item : HistoricoItem => Date_getTime (dataHora item)).

Lemma filteredHistorico_filter k historico :
  filteredHistorico StringToNumber k historico =
  filter (keeps StringToNumber k) historico.
Proof. destruct historico; reflexivity. Qed.

Lemma keeps_spec k item :
  keeps StringToNumber k item = true <->
  field k item <> JNull /\ field k item <> JUndefined /\
  Number StringToNumber (field k item) <> NaN.
Proof.
  unfold keeps. destruct (field k item) as [| | |q|s]; cbn.
  - split; [discriminate | intros (_ & H & _); congruence].
  - split; [discriminate | intros (H & _); congruence].
  - split; [discriminate | intros (_ & _ & H); congruence].
  - split; [intros _; repeat split; discriminate | reflexivity].
  - destruct (StringToNumber s); cbn.
    + split; [discriminate | intros (_ & _ & H); congruence].
    + split; [intros _; repeat split; discriminate | reflexivity].
Qed.

Lemma loadHistorico_perm entries :
  Permutation (loadHistorico Date_getTime (Some entries))
              (map (fun e => with_timestamp (fst e) (snd e)) entries).
Proof. apply Array_sort_perm. Qed.

Lemma loadHistorico_sorted entries :
  Forall (fun e => Date_getTime (dataHora (snd e)) <> None) entries ->
  StronglySorted (keyLe timeOf) (loadHistorico Date_getTime (Some entries)).
Proof.
  intros Hall. unfold loadHistorico.
  apply (Array_sort_sorted (byDataHora Date_getTime) timeOf).
  - intros a b. reflexivity.
  - apply Forall_forall. intros item Hin. apply in_map_iff in Hin.
    destruct Hin as (e & <- & He). rewrite Forall_forall in Hall.
    apply (Hall e He).
Qed.

(** Filtering commutes with permutation. *)
Lemma filter_perm {A : Type} (f : A -> bool) (l l' : list A) :
  Permutation l l' -> Permutation (filter f l) (filter f l').
Proof.
  induction 1 as [|x l l' Hp IH|x y l|l l' l'' H1 IH1 H2 IH2]; cbn.
  - apply perm_nil.
  - destruct (f x); [apply perm_skip|]; assumption.
  - destruct (f x), (f y); try apply Permutation_refl. apply perm_swap.
  - eapply perm_trans; eassumption.
Qed.

(** C5.  For every fetched window and every metric, the reduced series
    consists of exactly the records of the window whose metric value is
    neither [null] nor [undefined] and converts to a number; when the
    [dataHora] strings of the window all parse to a date, it is in ascending
    order of the parsed capture time.  Three records with temperatures 20,
    [null], 22 at increasing capture times reduce, for the temperature
    metric, to the first and the third record, with values 20 and 22 in that
    order. *)
Theorem C5_history_reducer :
  (forall k entries,
     let window := map (fun e => with_timestamp (fst e) (snd e)) entries in
     let out :=
       filteredHistorico StringToNumber k
         (loadHistorico Date_getTime (Some entries)) in
     Permutation out (filter (keeps StringToNumber k) window) /\
     (forall item, In item out <->
        In item window /\
        field k item <> JNull /\ field k item <> JUndefined /\
        Number StringToNumber (field k item) <> NaN) /\
     (Forall (fun e => Date_getTime (dataHora (snd e)) <> None) entries ->
      StronglySorted (keyLe timeOf) out)) /\
  (forall k1 k2 k3 r1 r2 r3 t1 t2 t3,
     Date_getTime (dataHora r1) = Some t1 ->
     Date_getTime (dataHora r2) = Some t2 ->
     Date_getTime (dataHora r3) = Some t3 ->
     (t1 < t2)%Z -> (t2 < t3)%Z ->
     temperatura r1 = JNum 20 ->
     temperatura r2 = JNull ->
     temperatura r3 = JNum 22 ->
     let out :=
       filteredHistorico StringToNumber K_temperatura
         (loadHistorico Date_getTime (Some [(k1, r1); (k2, r2); (k3, r3)])) in
     out = [with_timestamp k1 r1; with_timestamp k3 r3] /\
     map (fun item => Number StringToNumber (temperatura item)) out =
     [Fin 20; Fin 22]).
Proof.
  split.
  - intros k entries window out. subst out.
    rewrite filteredHistorico_filter.
    split; [|split].
    + apply filter_perm, loadHistorico_perm.
    + intros item. rewrite filter_In, keeps_spec.
      split; intros [Hin Hk]; (split; [|exact Hk]).
      * eapply Permutation_in; [apply loadHistorico_perm | exact Hin].
      * eapply Permutation_in;
          [apply Permutation_sym, loadHistorico_perm | exact Hin].
    + intros Hall. apply filter_sorted, loadHistorico_sorted, Hall.
  - intros k1 k2 k3 r1 r2 r3 t1 t2 t3 E1 E2 E3 H12 H23 T1 T2 T3 out.
    subst out. rewrite filteredHistorico_filter.
    unfold loadHistorico. cbn [map fst snd Array_sort sort_insert].
    unfold sorts_after, byDataHora. cbn [dataHora with_timestamp].
    rewrite E2, E3.
    destruct (Z.ltb_spec 0 (t2 - t3)); [lia|].
    cbn [sort_insert]. unfold sorts_after, byDataHora.
    cbn [dataHora with_timestamp]. rewrite E1, E2.
    destruct (Z.ltb_spec 0 (t1 - t2)); [lia|].
    cbn [filter]. unfold keeps. cbn [field temperatura with_timestamp].
    rewrite T1, T2, T3. cbn.
    split; [reflexivity | rewrite T1, T3; reflexivity].
Qed.

End HistoryFacts.

(** C5 on a concrete window: three records delivered out of order, the
    middle one (by time) without a temperature. *)
Lemma C5_history_reducer_witness :
  let getTime := fun s : string =>
    if String.eqb s "2024-05-01T10:00:00Z" then Some 1714557600000%Z
    else if String.eqb s "2024-05-01T10:05:00Z" then Some 1714557900000%Z
    else if String.eqb s "2024-05-01T10:10:00Z" then Some 1714558200000%Z
    else None in
  let rec := fun (d : string) (t : jsval) =>
    History.mkItem (JNum 1) (JNum 400) d (JNum 300) t "" JUndefined (JNum 80) in
  let entries :=
    [("k3"%string, rec "2024-05-01T10:10:00Z"%string (JNum 22));
     ("k1"%string, rec "2024-05-01T10:00:00Z"%string (JNum 20));
     ("k2"%string, rec "2024-05-01T10:05:00Z"%string JNull)] in
  let out :=
    History.filteredHistorico (fun _ => NaN) History.K_temperatura
      (History.loadHistorico getTime (Some entries)) in
  Forall (fun e => getTime (History.dataHora (snd e)) <> None) entries /\
  StronglySorted (keyLe (fun item => getTime (History.dataHora item))) out /\
  map History.temperatura out = [JNum 20; JNum 22].
Proof.
  intros getTime rec entries out.
  assert (Hparse :
    Forall (fun e => getTime (History.dataHora (snd e)) <> None) entries).
  { repeat constructor; vm_compute; discriminate. }
  split; [exact Hparse|]. split.
  - apply (proj2 (proj2 (proj1 (C5_history_reducer getTime (fun _ => NaN))
                            History.K_temperatura entries)) Hparse).
  - vm_compute. reflexivity.
Defined.


(* ================================================================== *)
(** * Properties of binary64 rounding *)

Section Binary64Facts.
Local Open Scope Q_scope.

(** Powers of two. *)
Lemma two_neq_0 : ~ 2 == 0.
Proof. intros H. discriminate H. Qed.

Lemma pow2_pos z : 0 < pow2 z.
Proof. apply Qpower_0_lt. reflexivity. Qed.

Lemma pow2_add a b : pow2 (a + b) == pow2 a * pow2 b.
Proof. apply Qpower_plus, two_neq_0. Qed.

Lemma pow2_le a b : (a <= b)%Z -> pow2 a <= pow2 b.
Proof. intros H. apply Qpower_le_compat_l; [exact H | discriminate]. Qed.


Lemma pow2_lt_inv a b : pow2 a < pow2 b -> (a < b)%Z.
Proof. intros H. apply (Qpower_lt_compat_l_inv 2); [exact H | reflexivity]. Qed.

Lemma pow2_Z z : (0 <= z)%Z -> pow2 z == inject_Z (2 ^ z).
Proof. intros H. unfold pow2. rewrite (Zpower_Qpower 2 z H). reflexivity. Qed.

(** Rounding to the nearest integer: the error is at most one half, the
    rounding respects equality of rationals, fixes the integers and is
    monotone. *)
Lemma rne_near x :
  inject_Z (rne x) - (1 # 2) <= x /\ x <= inject_Z (rne x) + (1 # 2).
Proof.
  unfold rne. pose proof (Qfloor_le x) as Hl. pose proof (Qlt_floor x) as Hu.
  rewrite inject_Z_plus in Hu. change (inject_Z 1) with 1 in Hu.
  destruct (Qcompare_spec (x - inject_Z (Qfloor x)) (1 # 2)) as [E|E|E];
    [destruct (Z.even (Qfloor x))| |];
    rewrite ?inject_Z_plus; change (inject_Z 1) with 1; lra.
Qed.

Lemma rne_comp x y : x == y -> rne x = rne y.
Proof.
  intros H. unfold rne. rewrite (Qfloor_comp _ _ H).
  assert (E : Qcompare (x - inject_Z (Qfloor y)) (1 # 2) =
              Qcompare (y - inject_Z (Qfloor y)) (1 # 2)).
  { apply Qcompare_comp; [rewrite H|]; reflexivity. }
  rewrite E. reflexivity.
Qed.

Lemma rne_Z z : rne (inject_Z z) = z.
Proof.
  unfold rne. rewrite Qfloor_Z.
  assert (E : Qcompare (inject_Z z - inject_Z z) (1 # 2) = Lt).
  { apply Qlt_alt. setoid_replace (inject_Z z - inject_Z z) with 0 by ring.
    reflexivity. }
  rewrite E. reflexivity.
Qed.

Lemma rne_mono x y : x <= y -> (rne x <= rne y)%Z.
Proof.
  intros H. destruct (Z.le_gt_cases (rne x) (rne y)) as [L|G]; [exact L|].
  exfalso. assert (G' : (rne y + 1 <= rne x)%Z) by lia.
  rewrite Zle_Qle in G'. rewrite inject_Z_plus in G'.
  change (inject_Z 1) with 1 in G'.
  destruct (rne_near x) as [Hx _]. destruct (rne_near y) as [_ Hy].
  assert (E : x == y) by lra.
  apply rne_comp in E. lia.
Qed.

Lemma rne_nonneg x : 0 <= x -> (0 <= rne x)%Z.
Proof.
  intros H. change 0%Z with (rne (inject_Z 0)) at 1. rewrite rne_Z at 1.
  rewrite <- (rne_Z 0). apply rne_mono. exact H.
Qed.

(** The binade of a positive number. *)
Lemma Q_as_div (a : Q) :
  a * inject_Z (Zpos (Qden a)) == inject_Z (Qnum a).
Proof.
  destruct a as [n d]. unfold Qeq. cbn. nia.
Qed.

Lemma ilog2_spec a :
  0 < a -> pow2 (ilog2 a) <= a /\ a < pow2 (ilog2 a + 1).
Proof.
  intros Ha.
  assert (Hn : (0 < Qnum a)%Z).
  { destruct a as [n d]. unfold Qlt in Ha. cbn [Qnum Qden] in *.
    rewrite Z.mul_0_l, Z.mul_1_r in Ha. exact Ha. }
  pose proof (Z.log2_spec (Qnum a) Hn) as [Hn1 Hn2].
  pose proof (Z.log2_spec (Zpos (Qden a)) (Pos2Z.is_pos _)) as [Hd1 Hd2].
  pose proof (Z.log2_nonneg (Qnum a)) as Ln.
  pose proof (Z.log2_nonneg (Zpos (Qden a))) as Ld.
  set (ln := Z.log2 (Qnum a)) in *. set (ld := Z.log2 (Zpos (Qden a))) in *.
  rewrite Zle_Qle in Hn1, Hd1. rewrite Zlt_Qlt in Hn2, Hd2.
  rewrite <- pow2_Z in Hn1, Hd1 by lia.
  rewrite <- pow2_Z in Hn2, Hd2 by lia.
  pose proof (Q_as_div a) as E.
  set (D := inject_Z (Zpos (Qden a))) in *.
  set (N := inject_Z (Qnum a)) in *.
  assert (HD : 0 < D) by (pose proof (pow2_pos ld); lra).
  unfold ilog2. fold ln ld.
  destruct (Qle_bool (pow2 (ln - ld)) a) eqn:B.
  - apply Qle_bool_iff in B. split; [exact B|].
    pose proof (pow2_add (ln - ld + 1) ld) as A.
    replace (ln - ld + 1 + ld)%Z with (Z.succ ln) in A by lia.
    pose proof (pow2_pos (ln - ld + 1)) as P.
    destruct (Qlt_le_dec a (pow2 (ln - ld + 1))) as [|C]; [assumption|].
    exfalso. nra.
  - assert (B' : a < pow2 (ln - ld)).
    { apply Qnot_le_lt. rewrite <- Qle_bool_iff. congruence. }
    replace (ln - ld - 1 + 1)%Z with (ln - ld)%Z by lia.
    split; [|exact B'].
    pose proof (pow2_add (ln - ld - 1) (Z.succ ld)) as A.
    replace (ln - ld - 1 + Z.succ ld)%Z with ln in A by lia.
    pose proof (pow2_pos (ln - ld - 1)) as P.
    destruct (Qlt_le_dec a (pow2 (ln - ld - 1))) as [C|]; [|assumption].
    exfalso. nra.
Qed.

Lemma ilog2_unique a e :
  pow2 e <= a -> a < pow2 (e + 1) -> ilog2 a = e.
Proof.
  intros H1 H2.
  assert (Ha : 0 < a) by (pose proof (pow2_pos e); lra).
  destruct (ilog2_spec a Ha) as [S1 S2].
  assert (A : (e < ilog2 a + 1)%Z) by (apply pow2_lt_inv; lra).
  assert (B : (ilog2 a < e + 1)%Z) by (apply pow2_lt_inv; lra).
  lia.
Qed.

Lemma ilog2_comp a b : 0 < a -> a == b -> ilog2 a = ilog2 b.
Proof.
  intros Ha E. destruct (ilog2_spec a Ha) as [S1 S2].
  symmetry. apply ilog2_unique; rewrite <- E; assumption.
Qed.

(** The spacing around a positive number: with the spacing [2^u] the number
    is below [2^(u + 53)], and at least [2^(u + 52)] unless the spacing is
    the least one. *)
Lemma ulp_exp_comp a b : 0 < a -> a == b -> ulp_exp a = ulp_exp b.
Proof. intros Ha E. unfold ulp_exp. rewrite (ilog2_comp a b Ha E). reflexivity. Qed.

Lemma ulp_min a : (-1074 <= ulp_exp a)%Z.
Proof. unfold ulp_exp. lia. Qed.

Lemma ulp_low a : 0 < a -> a < pow2 (ulp_exp a + 53).
Proof.
  intros Ha. destruct (ilog2_spec a Ha) as [_ S].
  eapply Qlt_le_trans; [exact S|]. apply pow2_le. unfold ulp_exp. lia.
Qed.

Lemma ulp_high a :
  0 < a -> (-1074 < ulp_exp a)%Z -> pow2 (ulp_exp a + 52) <= a.
Proof.
  intros Ha Hu. destruct (ilog2_spec a Ha) as [S _].
  eapply Qle_trans; [|exact S]. apply pow2_le. unfold ulp_exp in *. lia.
Qed.

(** Rounding to the grid of step [pow2 u]. *)
Lemma grid_mono u x y : x <= y -> grid u x <= grid u y.
Proof.
  intros H. unfold grid. pose proof (pow2_pos u) as P.
  apply Qmult_le_compat_r; [|lra].
  rewrite <- Zle_Qle. apply rne_mono.
  apply Qmult_le_compat_r; [exact H|].
  apply Qlt_le_weak, Qinv_lt_0_compat, P.
Qed.

Lemma grid_fix u j : (0 <= j)%Z -> grid u (pow2 (u + j)) == pow2 (u + j).
Proof.
  intros Hj. unfold grid. pose proof (pow2_pos u) as P.
  assert (E : pow2 (u + j) / pow2 u == inject_Z (2 ^ j)).
  { rewrite pow2_add, <- pow2_Z by exact Hj. field. lra. }
  rewrite (rne_comp _ _ E), rne_Z, <- pow2_Z by exact Hj.
  rewrite pow2_add. ring.
Qed.

Lemma grid_comp u x y : x == y -> grid u x == grid u y.
Proof.
  intros E. unfold grid.
  assert (E' : x / pow2 u == y / pow2 u) by (rewrite E; reflexivity).
  rewrite (rne_comp _ _ E'). reflexivity.
Qed.

Lemma grid_err u x :
  grid u x - pow2 u * (1 # 2) <= x /\ x <= grid u x + pow2 u * (1 # 2).
Proof.
  unfold grid. pose proof (pow2_pos u) as P.
  destruct (rne_near (x / pow2 u)) as [H1 H2].
  assert (E : x == x / pow2 u * pow2 u) by (field; lra).
  set (r := inject_Z (rne (x / pow2 u))) in *.
  set (y := x / pow2 u) in *. split; rewrite E at 1; nra.
Qed.

Lemma grid_0 u : grid u 0 == 0.
Proof.
  unfold grid. assert (E : 0 / pow2 u == inject_Z 0).
  { unfold Qdiv. ring. }
  rewrite (rne_comp _ _ E), rne_Z. ring.
Qed.

(** Rounding of a positive number. *)
Lemma round_pos_grid a : round_pos a = grid (ulp_exp a) a.
Proof. reflexivity. Qed.

Lemma round_pos_nonneg a : 0 < a -> 0 <= round_pos a.
Proof.
  intros Ha. rewrite round_pos_grid, <- (grid_0 (ulp_exp a)).
  apply grid_mono. lra.
Qed.

Lemma round_pos_upper a : 0 < a -> round_pos a <= pow2 (ulp_exp a + 53).
Proof.
  intros Ha. rewrite round_pos_grid.
  rewrite <- (grid_fix (ulp_exp a) 53) by lia.
  apply grid_mono, Qlt_le_weak, ulp_low, Ha.
Qed.

Lemma round_pos_lower a :
  0 < a -> (-1074 < ulp_exp a)%Z -> pow2 (ulp_exp a + 52) <= round_pos a.
Proof.
  intros Ha Hu. rewrite round_pos_grid.
  rewrite <- (grid_fix (ulp_exp a) 52) at 1 by lia.
  apply grid_mono, ulp_high; assumption.
Qed.

Lemma ulp_exp_mono a b : 0 < a -> a <= b -> (ulp_exp a <= ulp_exp b)%Z.
Proof.
  intros Ha Hab. assert (Hb : 0 < b) by lra.
  destruct (Z.le_gt_cases (ulp_exp a) (ulp_exp b)) as [L|G]; [exact L|].
  exfalso. pose proof (ulp_min b).
  pose proof (ulp_high a Ha ltac:(lia)) as H1.
  pose proof (ulp_low b Hb) as H2.
  assert (K : (ulp_exp a + 52 < ulp_exp b + 53)%Z) by (apply pow2_lt_inv; lra).
  lia.
Qed.

Lemma round_pos_mono a b : 0 < a -> a <= b -> round_pos a <= round_pos b.
Proof.
  intros Ha Hab. assert (Hb : 0 < b) by lra.
  pose proof (ulp_exp_mono a b Ha Hab) as Hu.
  destruct (Z.eq_dec (ulp_exp a) (ulp_exp b)) as [E|N].
  - rewrite !round_pos_grid, E. apply grid_mono. exact Hab.
  - pose proof (ulp_min a).
    pose proof (round_pos_upper a Ha) as U.
    pose proof (round_pos_lower b Hb ltac:(lia)) as L.
    assert (M : pow2 (ulp_exp a + 53) <= pow2 (ulp_exp b + 52))
      by (apply pow2_le; lia).
    lra.
Qed.

Lemma round_pos_comp a b : 0 < a -> a == b -> round_pos a == round_pos b.
Proof.
  intros Ha E. rewrite !round_pos_grid, (ulp_exp_comp a b Ha E).
  apply grid_comp, E.
Qed.


Lemma round_pos_err a :
  0 < a ->
  round_pos a - pow2 (ulp_exp a) * (1 # 2) <= a /\
  a <= round_pos a + pow2 (ulp_exp a) * (1 # 2).
Proof. intros _. rewrite round_pos_grid. apply grid_err. Qed.

(** The rounding of a rational of either sign. *)
Lemma round64_comp x y : x == y -> round64 x = round64 y.
Proof. intros H. unfold round64. rewrite (Qred_complete _ _ H). reflexivity. Qed.

Lemma round64_0 : round64 0 = 0.
Proof. reflexivity. Qed.

Lemma round64_pos x : 0 < x -> round64 x == round_pos x.
Proof.
  intros Hx. unfold round64.
  assert (C : Qcompare (Qred x) 0 = Gt).
  { apply Qgt_alt. rewrite Qred_correct. exact Hx. }
  rewrite C, Qred_correct. apply round_pos_comp.
  - rewrite Qred_correct. exact Hx.
  - apply Qred_correct.
Qed.

Lemma round64_neg x : x < 0 -> round64 x == - round_pos (- x).
Proof.
  intros Hx. unfold round64.
  assert (C : Qcompare (Qred x) 0 = Lt).
  { apply Qlt_alt. rewrite Qred_correct. exact Hx. }
  rewrite C, Qred_correct.
  assert (E : round_pos (- Qred x) == round_pos (- x)).
  { apply round_pos_comp; rewrite Qred_correct; [lra | reflexivity]. }
  rewrite E. reflexivity.
Qed.

Lemma round64_nonneg x : 0 <= x -> 0 <= round64 x.
Proof.
  intros Hx. destruct (Qlt_le_dec 0 x) as [P|N].
  - rewrite (round64_pos x P). apply round_pos_nonneg, P.
  - assert (E : x == 0) by lra. rewrite (round64_comp x 0 E), round64_0. lra.
Qed.

Lemma round64_nonpos x : x <= 0 -> round64 x <= 0.
Proof.
  intros Hx. destruct (Qlt_le_dec x 0) as [N|P].
  - rewrite (round64_neg x N).
    pose proof (round_pos_nonneg (- x) ltac:(lra)). lra.
  - assert (E : x == 0) by lra. rewrite (round64_comp x 0 E), round64_0. lra.
Qed.

(** Rounding is monotone. *)
Lemma round64_mono x y : x <= y -> round64 x <= round64 y.
Proof.
  intros H. destruct (Qlt_le_dec 0 x) as [Px|Nx].
  - rewrite (round64_pos x Px), (round64_pos y ltac:(lra)).
    apply round_pos_mono; assumption.
  - destruct (Qlt_le_dec y 0) as [Ny|Py].
    + rewrite (round64_neg x ltac:(lra)), (round64_neg y Ny).
      pose proof (round_pos_mono (- y) (- x) ltac:(lra) ltac:(lra)). lra.
    + pose proof (round64_nonpos x Nx). pose proof (round64_nonneg y Py). lra.
Qed.


(** The relative error of a rounding is at most [2^-53], up to the
    spacing [2^-1075] of the smallest numbers. *)
Lemma round_pos_rel a :
  0 < a ->
  a - (a * pow2 (-53) + pow2 (-1075)) <= round_pos a /\
  round_pos a <= a + (a * pow2 (-53) + pow2 (-1075)).
Proof.
  intros Ha. destruct (round_pos_err a Ha) as [E1 E2].
  assert (B : pow2 (ulp_exp a) * (1 # 2) <= a * pow2 (-53) + pow2 (-1075)).
  { pose proof (ulp_min a) as Hm.
    pose proof (pow2_pos (-53)). pose proof (pow2_pos (-1075)).
    destruct (Z.eq_dec (ulp_exp a) (-1074)) as [E|N].
    - rewrite E. assert (K : pow2 (-1074) * (1 # 2) == pow2 (-1075)).
      { replace (-1074)%Z with (-1075 + 1)%Z by lia. rewrite pow2_add.
        change (pow2 1) with 2. field. }
      rewrite K. nra.
    - pose proof (ulp_high a Ha ltac:(lia)) as Hh.
      assert (K : pow2 (ulp_exp a) * (1 # 2) ==
                  pow2 (ulp_exp a + 52) * pow2 (-53)).
      { rewrite <- pow2_add.
        replace (ulp_exp a + 52 + -53)%Z with (ulp_exp a + -1)%Z by lia.
        rewrite pow2_add. change (pow2 (-1)) with (1 # 2). reflexivity. }
      rewrite K. nra. }
  split; lra.
Qed.

Lemma round64_rel x :
  Qabs (round64 x - x) <= Qabs x * pow2 (-53) + pow2 (-1075).
Proof.
  pose proof (pow2_pos (-53)). pose proof (pow2_pos (-1075)).
  destruct (Qlt_le_dec 0 x) as [Px|Nx].
  - rewrite (round64_pos x Px). destruct (round_pos_rel x Px).
    rewrite (Qabs_pos x) by lra. apply Qabs_case; intros; lra.
  - destruct (Qlt_le_dec x 0) as [Nx'|Px].
    + rewrite (round64_neg x Nx').
      destruct (round_pos_rel (- x) ltac:(lra)).
      rewrite (Qabs_neg x) by lra. apply Qabs_case; intros; lra.
    + assert (E : x == 0) by lra.
      rewrite (round64_comp x 0 E), round64_0, E. cbn. nra.
Qed.



Lemma is_double_comp x y : x == y -> is_double x -> is_double y.
Proof.
  unfold is_double. intros E H. rewrite <- (round64_comp x y E), H. exact E.
Qed.

(** A rounding does not cross a binary64 value. *)
Lemma round64_le_double x y : is_double y -> x <= y -> round64 x <= y.
Proof.
  intros Hy H. unfold is_double in Hy. rewrite <- Hy. apply round64_mono, H.
Qed.

Lemma round64_ge_double x y : is_double y -> y <= x -> y <= round64 x.
Proof.
  intros Hy H. unfold is_double in Hy. rewrite <- Hy. apply round64_mono, H.
Qed.


Lemma pow2_m52 : pow2 (-52) == 1 # 4503599627370496.
Proof. reflexivity. Qed.

Lemma pow2_m53 : pow2 (-53) == 1 # 9007199254740992.
Proof. reflexivity. Qed.

Lemma pow2_m54 : pow2 (-54) == 1 # 18014398509481984.
Proof. reflexivity. Qed.

Lemma pow2_62 : pow2 62 == 4611686018427387904.
Proof. reflexivity. Qed.

Lemma pow2_63 : pow2 63 == 9223372036854775808.
Proof. reflexivity. Qed.

Lemma pow2_64 : pow2 64 == 18446744073709551616.
Proof. reflexivity. Qed.

Lemma eta_scale (j : Z) :
  (0 <= j)%Z -> pow2 (-1075 + j) == inject_Z (2 ^ j) * pow2 (-1075).
Proof.
  intros H. rewrite pow2_add, (pow2_Z j H). ring.
Qed.

Lemma eta_small : 0 < pow2 (-1075) /\ pow2 (-1075) <= 1.
Proof.
  split; [apply pow2_pos|]. change 1 with (pow2 0). apply pow2_le. lia.
Qed.

Lemma tenth_value : tenth = 3602879701896397 # 36028797018963968.
Proof. vm_compute. reflexivity. Qed.

(** The error of a rounding, for a bound [a] of the magnitude of the exact
    result. *)
Lemma round64_bounds x a :
  Qabs x <= a ->
  x - (a * (1 # 9007199254740992) + pow2 (-1075)) <= round64 x /\
  round64 x <= x + (a * (1 # 9007199254740992) + pow2 (-1075)).
Proof.
  intros Ha. pose proof (round64_rel x) as H. rewrite pow2_m53 in H.
  apply Qabs_Qle_condition in H. destruct H as [H1 H2].
  pose proof (Qabs_nonneg x). split; lra.
Qed.

Lemma Qabs_bounds x : x <= Qabs x /\ - x <= Qabs x /\ 0 <= Qabs x.
Proof.
  split; [apply Qle_Qabs|]. split; [|apply Qabs_nonneg].
  rewrite <- Qabs_opp. apply Qle_Qabs.
Qed.

End Binary64Facts.

(* ================================================================== *)
(** * Properties of the chart range and the axis labels *)

Section ChartFacts.
Import History.
Local Open Scope Q_scope.

Variable StringToNumber : string -> number.

Lemma Qmin2_cases a b :
  (Qmin2 a b = a \/ Qmin2 a b = b) /\ Qmin2 a b <= a /\ Qmin2 a b <= b.
Proof.
  unfold Qmin2. destruct (Qle_bool a b) eqn:E.
  - apply Qle_bool_iff in E. repeat split; auto; lra.
  - assert (~ a <= b) by (rewrite <- Qle_bool_iff; congruence).
    repeat split; auto; lra.
Qed.

Lemma Qmax2_cases a b :
  (Qmax2 a b = a \/ Qmax2 a b = b) /\ a <= Qmax2 a b /\ b <= Qmax2 a b.
Proof.
  unfold Qmax2. destruct (Qle_bool a b) eqn:E.
  - apply Qle_bool_iff in E. repeat split; auto; lra.
  - assert (~ a <= b) by (rewrite <- Qle_bool_iff; congruence).
    repeat split; auto; lra.
Qed.

Lemma fold_min_spec vs : forall v,
  In (fold_left Qmin2 vs v) (v :: vs) /\
  Forall (fun x => fold_left Qmin2 vs v <= x) (v :: vs).
Proof.
  induction vs as [|x vs IH]; intros v; cbn [fold_left].
  - split; [left; reflexivity | constructor; [lra | constructor]].
  - destruct (IH (Qmin2 v x)) as [Hin Hall].
    destruct (Qmin2_cases v x) as (Hc & Hv & Hx).
    inversion Hall as [|? ? Hhd Htl]; subst. split.
    + destruct Hin as [Hin|Hin].
      * rewrite <- Hin. destruct Hc as [-> | ->]; cbn; auto.
      * right. right. exact Hin.
    + constructor; [lra|]. constructor; [lra | exact Htl].
Qed.

Lemma fold_max_spec vs : forall v,
  In (fold_left Qmax2 vs v) (v :: vs) /\
  Forall (fun x => x <= fold_left Qmax2 vs v) (v :: vs).
Proof.
  induction vs as [|x vs IH]; intros v; cbn [fold_left].
  - split; [left; reflexivity | constructor; [lra | constructor]].
  - destruct (IH (Qmax2 v x)) as [Hin Hall].
    destruct (Qmax2_cases v x) as (Hc & Hv & Hx).
    inversion Hall as [|? ? Hhd Htl]; subst. split.
    + destruct Hin as [Hin|Hin].
      * rewrite <- Hin. destruct Hc as [-> | ->]; cbn; auto.
      * right. right. exact Hin.
    + constructor; [lra|]. constructor; [lra | exact Htl].
Qed.


(** The range of a series with at least one value. *)
Lemma chartRange_nonempty k filtered v vs :
  chartValues StringToNumber k filtered = v :: vs ->
  chartRange StringToNumber k filtered =
  let mn := Math_min 0 (v :: vs) in
  let mx := Math_max 0 (v :: vs) in
  let margin := fmul (fsub mx mn) tenth in
  mkRange (fsub mn margin) (fadd mx margin) (List.last (v :: vs) 0) mn mx.
Proof.
  intros E. unfold chartRange. destruct filtered as [|item l].
  - discriminate E.
  - rewrite E. reflexivity.
Qed.

(** The margin [range * 0.1] is 10% of the span, up to the error of its two
    roundings and of the literal. *)
Lemma margin_spec mn mx :
  mn <= mx ->
  0 <= fmul (fsub mx mn) tenth /\
  Qabs (fmul (fsub mx mn) tenth - (mx - mn) * (1 # 10)) <=
  (mx - mn) * pow2 (-54) + pow2 (-1074).
Proof.
  intros H. unfold fmul, fsub. rewrite tenth_value.
  set (r1 := round64 (mx - mn)).
  assert (R1 : 0 <= r1) by (apply round64_nonneg; lra).
  destruct (round64_bounds (mx - mn) (mx - mn)) as [A1 A2].
  { rewrite Qabs_pos; lra. }
  fold r1 in A1, A2.
  set (p := r1 * (3602879701896397 # 36028797018963968)).
  assert (P : 0 <= p) by (unfold p; lra).
  destruct (round64_bounds p p) as [B1 B2].
  { rewrite Qabs_pos; lra. }
  split; [apply round64_nonneg, P|].
  change (-1074)%Z with (-1075 + 1)%Z. rewrite pow2_m54, eta_scale by lia.
  change (inject_Z (2 ^ 1)) with 2.
  destruct eta_small as [N0 _].
  apply Qabs_Qle_condition. unfold p in *. split; lra.
Qed.

(** The padded bounds lie outside the least and the greatest value, 10% of
    the span away up to rounding. *)
Lemma padded_spec mn mx :
  is_double mn -> is_double mx -> mn <= mx ->
  let margin := fmul (fsub mx mn) tenth in
  fsub mn margin <= mn /\ mx <= fadd mx margin /\
  Qabs (fsub mn margin - (mn - (mx - mn) * (1 # 10))) <=
    (Qabs mn + (mx - mn)) * pow2 (-52) + pow2 (-1072) /\
  Qabs (fadd mx margin - (mx + (mx - mn) * (1 # 10))) <=
    (Qabs mx + (mx - mn)) * pow2 (-52) + pow2 (-1072).
Proof.
  intros Dmn Dmx H. cbv zeta.
  destruct (margin_spec mn mx H) as [M0 M1].
  set (m := fmul (fsub mx mn) tenth) in *.
  change (-1074)%Z with (-1075 + 1)%Z in M1.
  rewrite pow2_m54, eta_scale in M1 by lia.
  change (inject_Z (2 ^ 1)) with 2 in M1.
  apply Qabs_Qle_condition in M1. destruct M1 as [M1 M2].
  destruct eta_small as [N0 _].
  destruct (Qabs_bounds mn) as (An1 & An2 & An3).
  destruct (Qabs_bounds mx) as (Ax1 & Ax2 & Ax3).
  unfold fsub, fadd.
  destruct (round64_bounds (mn - m) (Qabs mn + m)) as [A1 A2].
  { apply Qabs_Qle_condition. split; lra. }
  destruct (round64_bounds (mx + m) (Qabs mx + m)) as [B1 B2].
  { apply Qabs_Qle_condition. split; lra. }
  change (-1072)%Z with (-1075 + 3)%Z. rewrite pow2_m52, eta_scale by lia.
  change (inject_Z (2 ^ 3)) with 8.
  split; [apply round64_le_double; [exact Dmn | lra]|].
  split; [apply round64_ge_double; [exact Dmx | lra]|].
  split; apply Qabs_Qle_condition; split; lra.
Qed.

(** The least and the greatest value of a series of readings are
    readings. *)
Lemma extremes_are_readings v vs :
  Forall reading (v :: vs) ->
  reading (Math_min 0 (v :: vs)) /\ reading (Math_max 0 (v :: vs)) /\
  Math_min 0 (v :: vs) <= Math_max 0 (v :: vs).
Proof.
  intros Hr. cbn [Math_min Math_max].
  destruct (fold_min_spec vs v) as [Hmin_in Hmin_le].
  destruct (fold_max_spec vs v) as [Hmax_in Hmax_le].
  rewrite Forall_forall in Hr.
  split; [apply Hr, Hmin_in|]. split; [apply Hr, Hmax_in|].
  inversion Hmin_le; subst. inversion Hmax_le; subst. lra.
Qed.


(** No operation of the range computation on readings comes near [2^1024],
    where binary64 arithmetic overflows: every exact result is below
    [2^64]. *)
Lemma range_arithmetic_bounded mn mx :
  reading mn -> reading mx -> mn <= mx ->
  let range := fsub mx mn in
  let margin := fmul range tenth in
  Qabs (mx - mn) <= pow2 64 /\ Qabs (range * tenth) <= pow2 64 /\
  Qabs (mn - margin) <= pow2 64 /\ Qabs (mx + margin) <= pow2 64.
Proof.
  intros [Dmn Bmn] [Dmx Bmx] H. cbv zeta. unfold fmul, fsub.
  rewrite tenth_value.
  set (range := round64 (mx - mn)).
  assert (R0 : 0 <= range) by (apply round64_nonneg; lra).
  destruct (round64_bounds (mx - mn) (mx - mn)) as [A1 A2].
  { rewrite Qabs_pos; lra. }
  fold range in A1, A2.
  set (p := range * (3602879701896397 # 36028797018963968)).
  assert (P0 : 0 <= p) by (unfold p; lra).
  destruct (round64_bounds p p) as [P1 P2].
  { rewrite Qabs_pos; lra. }
  set (margin := round64 p) in *.
  rewrite pow2_62 in Bmn, Bmx. apply Qabs_Qle_condition in Bmn, Bmx.
  destruct eta_small as [N0 N1]. rewrite pow2_64. unfold p in *.
  repeat split; apply Qabs_Qle_condition; split; lra.
Qed.

(** Nor does an operation of the label loop: every exact result is below
    [2^70]. *)
Lemma axis_arithmetic_bounded r i :
  min r <= max r -> Qabs (min r) <= pow2 63 -> Qabs (max r) <= pow2 63 ->
  (i <= 4)%nat ->
  let range := fsub (max r) (min r) in
  let scaled := fmul range (inject_Z (Z.of_nat i)) in
  let step := fdiv scaled (inject_Z (Z.of_nat steps)) in
  Qabs (max r - min r) <= pow2 70 /\
  Qabs (range * inject_Z (Z.of_nat i)) <= pow2 70 /\
  Qabs (scaled / inject_Z (Z.of_nat steps)) <= pow2 70 /\
  Qabs (min r + step) <= pow2 70.
Proof.
  intros H Bn Bx Hi. cbv zeta. unfold fdiv, fmul, fsub.
  rewrite pow2_63 in Bn, Bx. apply Qabs_Qle_condition in Bn, Bx.
  set (a := round64 (max r - min r)).
  assert (A0 : 0 <= a) by (apply round64_nonneg; lra).
  destruct (round64_bounds (max r - min r) (max r - min r)) as [A1 A2].
  { rewrite Qabs_pos; lra. }
  fold a in A1, A2.
  destruct eta_small as [N0 N1].
  assert (P70 : pow2 70 == 1180591620717411303424) by reflexivity.
  rewrite P70.
  change (inject_Z (Z.of_nat steps)) with 4.
  do 5 (destruct i as [|i];
    [ cbn [Z.of_nat Pos.of_succ_nat Pos.succ];
      match goal with
      | |- context [round64 (a * inject_Z ?z)] =>
          change (inject_Z z) with (z # 1);
          set (b := round64 (a * (z # 1)));
          assert (B0 : 0 <= b) by (apply round64_nonneg; lra);
          destruct (round64_bounds (a * (z # 1)) (a * (z # 1))) as [B1 B2];
          [rewrite Qabs_pos; lra|]; fold b in B1, B2
      end;
      assert (E : round64 (b / 4) = round64 (b * (1 # 4)))
        by (apply round64_comp; field);
      rewrite E;
      set (c := round64 (b * (1 # 4)));
      assert (C0 : 0 <= c) by (apply round64_nonneg; lra);
      destruct (round64_bounds (b * (1 # 4)) (b * (1 # 4))) as [C1 C2];
      [rewrite Qabs_pos; lra|]; fold c in C1, C2;
      unfold Qdiv; change (/ 4) with (1 # 4);
      repeat split; apply Qabs_Qle_condition; split; lra
    |]).
  lia.
Qed.
















End ChartFacts.




(* ================================================================== *)
(** * Properties of the actuator state derivation *)

Section ActuatorFacts.
Import Actuators.

(** C8.  For every actuator snapshot, in both variants of the screen:
    [rele1] on and [rele2] on give the state "Aquecendo" (heating); [rele1]
    on and [rele2] off give "Resfriando" (cooling); [rele1] off gives "OFF",
    whatever [rele2] is. *)
Theorem C8_climatizador (a : Atuadores) :
  let data := Some (mkEstufaData (Some a)) in
  (Boolean (rele1 a) = true -> Boolean (rele2 a) = true ->
     Simple.climatizador data = Some climaAquecendo /\
     Rich.climatizador data = climaAquecendo) /\
  (Boolean (rele1 a) = true -> Boolean (rele2 a) = false ->
     Simple.climatizador data = Some climaResfriando /\
     Rich.climatizador data = climaResfriando) /\
  (Boolean (rele1 a) = false ->
     Simple.climatizador data = Some climaOff /\
     Rich.climatizador data = climaOff) /\
  label climaAquecendo = "Aquecendo"%string /\
  label climaResfriando = "Resfriando"%string /\
  label climaOff = "OFF"%string.
Proof.
  cbv zeta. unfold Simple.climatizador, Rich.climatizador.
  cbn [atuadores].
  repeat split; intros; repeat match goal with
                               | H : Boolean _ = _ |- _ => rewrite H
                               end; reflexivity.
Qed.

Lemma C8_climatizador_witness :
  Rich.climatizador
    (Some (mkEstufaData
             (Some (mkAtuadores (Some true) (Some true) None None None)))) =
  climaAquecendo /\
  Simple.climatizador
    (Some (mkEstufaData
             (Some (mkAtuadores (Some false) (Some true) None None None)))) =
  Some climaOff.
Proof.
  split.
  - apply (proj1 (C8_climatizador
                    (mkAtuadores (Some true) (Some true) None None None)));
      reflexivity.
  - apply (proj1 (proj2 (proj2 (C8_climatizador
                    (mkAtuadores (Some false) (Some true) None None None)))));
      reflexivity.
Defined.

(** C10.  In both variants the humidifier state is the truth value of the
    field [umidificador] when it is present, and of [rele3] only when
    [umidificador] is absent or [null]; an explicit [false] gives "OFF" even
    when [rele3] is on. *)
Theorem C10_umidificador (a : Atuadores) :
  let data := Some (mkEstufaData (Some a)) in
  (forall b, umidificador a = Some b ->
     Simple.umidificador data = Some (if b then umidOn else umidOff) /\
     Rich.umidificador data = if b then umidOn else umidOff) /\
  (umidificador a = None ->
     Simple.umidificador data =
       Some (if Boolean (rele3 a) then umidOn else umidOff) /\
     Rich.umidificador data = if Boolean (rele3 a) then umidOn else umidOff) /\
  (umidificador a = Some false -> rele3 a = Some true ->
     Simple.umidificador data = Some umidOff /\
     Rich.umidificador data = umidOff).
Proof.
  cbv zeta. unfold Simple.umidificador, Rich.umidificador, nullish_or.
  cbn [atuadores].
  repeat split; intros;
    repeat match goal with
           | H : umidificador _ = _ |- _ => rewrite H
           end;
    try match goal with
        | b : bool |- _ => destruct b
        end; cbn; try reflexivity;
    destruct (Boolean (rele3 a)); reflexivity.
Qed.

Lemma C10_umidificador_witness :
  Rich.umidificador
    (Some (mkEstufaData
             (Some (mkAtuadores None None (Some true) None (Some false))))) =
  umidOff /\
  Simple.umidificador
    (Some (mkEstufaData
             (Some (mkAtuadores None None (Some true) None None)))) =
  Some umidOn.
Proof.
  split.
  - apply (proj2 (proj2 (C10_umidificador
                    (mkAtuadores None None (Some true) None (Some false)))));
      reflexivity.
  - apply (proj1 (proj2 (C10_umidificador
                    (mkAtuadores None None (Some true) None None))));
      reflexivity.
Defined.

(** In the documented variant the subscription callback fills every absent
    field with its default before the derivation runs, so on the data it
    stores [umidificador] is always present. *)
Lemma processed_umidificador_present fb :
  umidificador (Rich.processAtuadores fb) <> None.
Proof.
  destruct fb as [a|]; cbn; [|discriminate].
  destruct (umidificador a); discriminate.
Qed.

End ActuatorFacts.

(* ================================================================== *)
(** * Further properties of the richer heartbeat monitor *)

Section HeartbeatMore.
Import Heartbeat.
Local Open Scope Z_scope.

Ltac zcases :=
  repeat match goal with
         | H : context [(_ >=? _)] |- _ => rewrite Z.geb_leb in H
         | |- context [(_ >=? _)] => rewrite Z.geb_leb
         | |- context [(?a <? ?b)] => destruct (Z.ltb_spec a b)
         | |- context [(?a <=? ?b)] => destruct (Z.leb_spec a b)
         | |- context [(?a =? ?b)] => destruct (Z.eqb_spec a b)
         end.

Ltac open_check :=
  unfold checkHeartbeatStatus, setIsOnline, setInitialLoad, setLastHeartbeat,
    HEARTBEAT_TIMEOUT, INITIAL_GRACE_PERIOD in *;
  cbn [lastHeartbeatRef initialLoadRef isOnline fst snd] in *.

(** An evaluation never arms the grace flag. *)
Lemma check_keeps_grace_cleared seen now m :
  initialLoadRef m = false ->
  initialLoadRef (fst (checkHeartbeatStatus seen now m)) = false.
Proof.
  intros H. open_check. rewrite H. cbn.
  destruct (negb (Bool.eqb seen (now - lastHeartbeatRef m <? 25000)));
    cbn; assumption.
Qed.

Lemma update_keeps_grace_cleared seen now v m :
  initialLoadRef m = false ->
  initialLoadRef (fst (updateHeartbeat seen now v m)) = false.
Proof.
  intros H. unfold updateHeartbeat. destruct v as [| |t]; cbn; auto.
  destruct (negb (t =? 0) && (lastHeartbeatRef m <? t)); cbn; auto.
  apply check_keeps_grace_cleared. exact H.
Qed.

Lemma handler_keeps_grace_cleared seen fb now data m :
  initialLoadRef m = false ->
  initialLoadRef (fst (onEstufaValue seen fb now data m)) = false.
Proof.
  intros H. unfold onEstufaValue. destruct data as [d|]; cbn; auto.
  destruct (truthy (status_lastHeartbeat d));
    apply update_keeps_grace_cleared; exact H.
Qed.

(** An evaluation whose closure reads [false], or reads the current state,
    leaves the screen online when the elapsed time is below the timeout. *)
Lemma check_online_when_fresh seen now m :
  seen = false \/ seen = isOnline m ->
  now - lastHeartbeatRef m < HEARTBEAT_TIMEOUT ->
  isOnline (fst (checkHeartbeatStatus seen now m)) = true.
Proof.
  intros Hseen Hlt. open_check.
  destruct (initialLoadRef m); cbn; zcases; cbn; try lia; auto;
    destruct Hseen as [-> | ->]; cbn; auto;
    destruct (isOnline m) eqn:E; cbn; auto.
Qed.

(** X1.  A heartbeat that is accepted and less than 25 s old puts the
    screen online, for the closure of the mounting render (which reads
    [false]) and for a closure that reads the current state. *)
Theorem accepted_fresh_heartbeat_online (seen : bool) (now t : Z)
        (m : Monitor) :
  seen = false \/ seen = isOnline m ->
  t <> 0 -> lastHeartbeatRef m < t ->
  now - t < HEARTBEAT_TIMEOUT ->
  lastHeartbeatRef (fst (updateHeartbeat seen now (TNum t) m)) = t /\
  isOnline (fst (updateHeartbeat seen now (TNum t) m)) = true.
Proof.
  intros Hseen Hnz Hlt Hfresh. split.
  - apply update_accepts; assumption.
  - unfold updateHeartbeat, truthy, gt_num.
    destruct (Z.eqb_spec t 0); [contradiction|].
    destruct (Z.ltb_spec (lastHeartbeatRef m) t); [|lia]. cbn [negb andb].
    apply check_online_when_fresh; cbn; assumption.
Qed.

Lemma accepted_fresh_heartbeat_online_witness :
  isOnline
    (fst (updateHeartbeat false 61000 (TNum 60000)
            (mkMonitor 1000 false false))) = true.
Proof.
  apply (accepted_fresh_heartbeat_online false 61000 60000
           (mkMonitor 1000 false false)).
  - left. reflexivity.
  - discriminate.
  - cbn. lia.
  - unfold HEARTBEAT_TIMEOUT. lia.
Defined.

(** X2.  A closure that reads [isOnline = true] (an effect registered while
    the screen was online) never brings an offline screen back online once
    the grace flag is cleared: neither an evaluation nor any candidate
    heartbeat, however recent, changes [isOnline]. *)
Theorem stale_true_closure_stays_offline (now : Z) (m : Monitor) :
  initialLoadRef m = false ->
  isOnline m = false ->
  isOnline (fst (checkHeartbeatStatus true now m)) = false /\
  (forall v, isOnline (fst (updateHeartbeat true now v m)) = false).
Proof.
  intros Hload Hoff.
  assert (K : forall m', initialLoadRef m' = false -> isOnline m' = false ->
                 isOnline (fst (checkHeartbeatStatus true now m')) = false).
  { intros m' Hl Ho. open_check. rewrite Hl. cbn.
    destruct (now - lastHeartbeatRef m' <? 25000); cbn; auto. }
  split; [apply K; assumption|].
  intros v. unfold updateHeartbeat. destruct v as [| |t]; cbn; auto.
  destruct (negb (t =? 0) && (lastHeartbeatRef m <? t)); cbn; auto.
Qed.

Lemma stale_true_closure_stays_offline_witness :
  isOnline
    (fst (updateHeartbeat true 61000 (TNum 60500)
            (mkMonitor 1000 false false))) = false.
Proof.
  apply (stale_true_closure_stays_offline 61000 (mkMonitor 1000 false false));
    reflexivity.
Defined.

(** X3.  After the monitor is started at [t0], a candidate stamped at or
    before [t0] is never accepted, whatever was recorded in between: the
    call changes nothing and publishes nothing. *)
Theorem stamps_before_start_ignored (seen : bool) (t0 t now : Z)
        (s : Screen) (sigs : list (tsval * Z)) :
  t <= t0 ->
  let m := recordSignals seen sigs (mon (startEffect t0 s)) in
  updateHeartbeat seen now (TNum t) m = (m, None).
Proof.
  intros Hle m. apply update_rejects.
  pose proof (recordSignals_last_le seen sigs (mon (startEffect t0 s))) as K.
  change (lastHeartbeatRef (mon (startEffect t0 s))) with t0 in K.
  change (recordSignals seen sigs (mon (startEffect t0 s))) with m in K.
  unfold gt_num. destruct (Z.ltb_spec (lastHeartbeatRef m) t); [lia|].
  apply andb_false_r.
Qed.

Lemma stamps_before_start_ignored_witness :
  let m := recordSignals false [(TNum 1700000005000, 1700000005100)]
             (mon (startEffect 1700000000000 initialScreen)) in
  updateHeartbeat false 1700000009000 (TNum 123456) m = (m, None).
Proof.
  apply (stamps_before_start_ignored false 1700000000000 123456
           1700000009000 initialScreen
           [(TNum 1700000005000, 1700000005100)]).
  lia.
Defined.

End HeartbeatMore.

(* ================================================================== *)
(** * Life cycle of the heartbeat interval *)

Section LifecycleFacts.
Import Heartbeat.
Import Lifecycle.
Local Open Scope Z_scope.

Lemma clearInterval_single h s : clearInterval h [mkInterval h s] = [].
Proof. unfold clearInterval. cbn. rewrite Pos.eqb_refl. reflexivity. Qed.

Lemma stop_tidy c : tidy c -> tidy (stopHeartbeatMonitoring c).
Proof.
  unfold tidy, stopHeartbeatMonitoring.
  destruct (heartbeatIntervalRef c) as [h|] eqn:E; cbn.
  - intros [s Hs]. rewrite Hs. apply clearInterval_single.
  - rewrite E. auto.
Qed.

Lemma stop_clears c :
  tidy c ->
  intervals (stopHeartbeatMonitoring c) = [] /\
  heartbeatIntervalRef (stopHeartbeatMonitoring c) = None.
Proof.
  unfold tidy, stopHeartbeatMonitoring.
  destruct (heartbeatIntervalRef c) as [h|] eqn:E; cbn.
  - intros [s Hs]. rewrite Hs. split; [apply clearInterval_single | reflexivity].
  - intros H. rewrite E. auto.
Qed.

Lemma step_tidy e c : tidy c -> tidy (step e c).
Proof.
  intros T. destruct e as [estufaId now| |h now|data fb now];
    cbn [step].
  - unfold heartbeatEffect. destruct (truthy_id estufaId).
    + unfold tidy, startHeartbeatMonitoring in *.
      cbn [heartbeatIntervalRef intervals monitor nextHandle].
      destruct (heartbeatIntervalRef c) as [h|].
      * destruct T as [s Hs]. rewrite Hs, clearInterval_single. eauto.
      * rewrite T. eauto.
    + pose proof (stop_tidy c T) as T'. unfold tidy in *. cbn. exact T'.
  - apply stop_tidy. exact T.
  - unfold fire.
    destruct (find _ (intervals c)); [|exact T]. unfold tidy in *. cbn.
    exact T.
  - unfold push. destruct (heartbeatIntervalRef c) as [h|] eqn:E; [|exact T].
    destruct (find _ (intervals c)); [|exact T].
    unfold tidy in *. cbn. rewrite E in *. exact T.
Qed.

Lemma run_tidy events : forall c, tidy c -> tidy (run events c).
Proof.
  induction events as [|e events IH]; intros c T; cbn.
  - exact T.
  - apply IH, step_tidy, T.
Qed.

Lemma stop_idempotent c :
  stopHeartbeatMonitoring (stopHeartbeatMonitoring c) =
  stopHeartbeatMonitoring c.
Proof.
  unfold stopHeartbeatMonitoring.
  destruct (heartbeatIntervalRef c) as [h|] eqn:E; cbn.
  - reflexivity.
  - rewrite E. reflexivity.
Qed.

(** X4.  Whatever sequence of effect runs, cleanups, interval firings and
    snapshots the component goes through, at most one interval is
    registered and it is the one held in [heartbeatIntervalRef]; after
    [stopHeartbeatMonitoring] none is registered, a late firing of any
    handle does nothing, and stopping again changes nothing. *)
Theorem heartbeat_interval_never_leaks (events : list Event) :
  let c := run events initialComponent in
  (List.length (intervals c) <= 1)%nat /\
  (forall i, In i (intervals c) -> heartbeatIntervalRef c = Some (handle i)) /\
  intervals (stopHeartbeatMonitoring c) = [] /\
  heartbeatIntervalRef (stopHeartbeatMonitoring c) = None /\
  (forall h now,
     fire h now (stopHeartbeatMonitoring c) = stopHeartbeatMonitoring c) /\
  stopHeartbeatMonitoring (stopHeartbeatMonitoring c) =
  stopHeartbeatMonitoring c.
Proof.
  intros c.
  assert (T : tidy c) by (apply run_tidy; reflexivity).
  destruct (stop_clears c T) as [Hnone Href].
  repeat split.
  - unfold tidy in T. destruct (heartbeatIntervalRef c).
    + destruct T as [s ->]. cbn. lia.
    + rewrite T. cbn. lia.
  - intros i Hin. unfold tidy in T. destruct (heartbeatIntervalRef c).
    + destruct T as [s Hs]. rewrite Hs in Hin. destruct Hin as [<-|[]].
      reflexivity.
    + rewrite T in Hin. destruct Hin.
  - exact Hnone.
  - exact Href.
  - intros h now. unfold fire. rewrite Hnone. reflexivity.
  - apply stop_idempotent.
Qed.

(** X5.  Nothing but a run of the effect arms the grace flag: over any
    sequence of cleanups, interval firings and snapshots, a cleared
    [initialLoadRef] stays cleared. *)
Theorem grace_rearms_only_on_start (events : list Event) : forall c,
  forallb keepsConnection events = true ->
  initialLoadRef (monitor c) = false ->
  initialLoadRef (monitor (run events c)) = false.
Proof.
  induction events as [|e events IH]; intros c Hev Hload; cbn.
  - exact Hload.
  - cbn in Hev. apply andb_prop in Hev. destruct Hev as [He Hev].
    apply IH; [exact Hev|].
    destruct e as [estufaId now| |h now|data fb now]; cbn [step].
    + discriminate He.
    + unfold stopHeartbeatMonitoring.
      destruct (heartbeatIntervalRef c); exact Hload.
    + unfold fire. destruct (find _ (intervals c)); [|exact Hload]. cbn.
      apply check_keeps_grace_cleared. exact Hload.
    + unfold push. destruct (heartbeatIntervalRef c); [|exact Hload].
      destruct (find _ (intervals c)); [|exact Hload]. cbn.
      apply handler_keeps_grace_cleared. exact Hload.
Qed.

Lemma grace_rearms_only_on_start_witness :
  initialLoadRef
    (monitor
       (run [Fire 1%positive 12000;
             Push (Some (mkSnapshot (TNum 13000) TUndefined)) 13100 13100;
             Fire 1%positive 17000]
            (heartbeatEffect (Some "IFUNGI-001"%string) 1000
                             initialComponent))) = false.
Proof.
  change (initialLoadRef
    (monitor
       (run [Push (Some (mkSnapshot (TNum 13000) TUndefined)) 13100 13100;
             Fire 1%positive 17000]
            (step (Fire 1%positive 12000)
               (heartbeatEffect (Some "IFUNGI-001"%string) 1000
                                initialComponent)))) = false).
  apply grace_rearms_only_on_start; reflexivity.
Defined.

(** With the closure of the mounting render, a call of [updateHeartbeat]
    never turns an online state offline. *)
Lemma update_stale_keeps_online now v m :
  isOnline m = true ->
  isOnline (fst (updateHeartbeat false now v m)) = true.
Proof.
  intros Hon. unfold updateHeartbeat. destruct v as [| |t]; cbn; auto.
  destruct (negb (t =? 0) && (lastHeartbeatRef m <? t)); cbn; auto.
  apply check_stale_keeps_online. exact Hon.
Qed.

(** X6.  Once the screen is mounted on a greenhouse, the state [isOnline]
    stays [true] through every sequence of interval firings, cleanups and
    non-empty snapshots, whatever the clock and the heartbeats are: the
    closures registered by the mounting render read [isOnline = false], so
    none of these events publishes [false]. *)
Theorem mounted_screen_offline_only_by_empty_snapshot
        (estufaId : option string) (now0 : Z) (events : list Event) :
  truthy_id estufaId = true ->
  forallb keepsConnection events = true ->
  forallb noEmptySnapshot events = true ->
  isOnline
    (monitor (run events (heartbeatEffect estufaId now0 initialComponent)))
  = true.
Proof.
  intros Hid Hkeep Hne.
  assert (G : forall c,
             isOnline (monitor c) = true ->
             Forall (fun i => sees i = false) (intervals c) ->
             forallb keepsConnection events = true ->
             forallb noEmptySnapshot events = true ->
             isOnline (monitor (run events c)) = true).
  { clear. induction events as [|e events IH]; intros c Hon Hsees Hk Hn; cbn.
    - exact Hon.
    - cbn in Hk, Hn. apply andb_prop in Hk. apply andb_prop in Hn.
      destruct Hk as [Hk1 Hk], Hn as [Hn1 Hn].
      assert (Hfind : forall h i,
                 find (fun i => Pos.eqb (handle i) h) (intervals c) = Some i ->
                 sees i = false).
      { intros h i Hf. apply find_some in Hf. rewrite Forall_forall in Hsees.
        apply Hsees. tauto. }
      destruct e as [estufaId now| |h now|data fb now]; cbn [step].
      + discriminate Hk1.
      + apply IH; auto; unfold stopHeartbeatMonitoring;
          destruct (heartbeatIntervalRef c); cbn; auto.
        unfold clearInterval. apply Forall_forall. intros i Hi.
        apply filter_In in Hi. rewrite Forall_forall in Hsees.
        apply Hsees. tauto.
      + apply IH; auto; unfold fire;
          destruct (find _ (intervals c)) as [i|] eqn:F; cbn; auto.
        rewrite (Hfind h i F). apply check_stale_keeps_online. exact Hon.
      + apply IH; auto; unfold push;
          destruct (heartbeatIntervalRef c) as [h|]; cbn; auto;
          destruct (find _ (intervals c)) as [i|] eqn:F; cbn; auto.
        rewrite (Hfind h i F). destruct data as [d|]; [|discriminate Hn1].
        unfold onEstufaValue.
        destruct (truthy (status_lastHeartbeat d));
          apply update_stale_keeps_online; exact Hon. }
  apply G; auto.
  - unfold heartbeatEffect. rewrite Hid. reflexivity.
  - unfold heartbeatEffect. rewrite Hid. cbn. repeat constructor.
Qed.

Lemma mounted_screen_offline_only_by_empty_snapshot_witness :
  isOnline
    (monitor
       (run [Fire 1%positive 6000;
             Push (Some (mkSnapshot (TNum 7000) TUndefined)) 7100 7100;
             Fire 1%positive 40000; Fire 1%positive 45000]
            (heartbeatEffect (Some "IFUNGI-001"%string) 1000
                             initialComponent))) = true.
Proof.
  apply (mounted_screen_offline_only_by_empty_snapshot
           (Some "IFUNGI-001"%string) 1000); reflexivity.
Defined.

End LifecycleFacts.

(* ================================================================== *)
(** * Sensor cards and reservoir status *)

Section CardFacts.
Import Cards.
Local Open Scope Q_scope.

(** On a non-negative value [toFixed(0)] prints the integer [Math.round]
    gives. *)
Lemma toFixed0_round (v : Q) :
  0 <= v -> toFixed0 v = string_of_Z (Math_round v).
Proof.
  intros Hpos. unfold toFixed0, Math_round.
  apply Qle_bool_iff in Hpos. rewrite Hpos. reflexivity.
Qed.

(** X7.  The axis labels and the sensor cards show the same number: for
    temperature the two texts are equal for every value; for humidity they
    are equal for every non-negative value; for luminosity, CO2 and CO they
    show the same integer for every non-negative value, the card with a
    space before the unit and the axis without.  On the negative tie -2.5
    the humidity texts differ ([Math.round] gives -2, [toFixed(0)] -3). *)
Theorem axis_labels_agree_with_cards :
  (forall v,
     History.formatAxis History.K_temperatura v =
     formatValue S_temperatura (Some (Fin v))) /\
  (forall v, 0 <= v ->
     History.formatAxis History.K_umidade v =
     formatValue S_umidade (Some (Fin v))) /\
  (forall v, 0 <= v ->
     let n := string_of_Z (Math_round v) in
     History.formatAxis History.K_luminosidade v = (n ++ "LUX")%string /\
     formatValue S_luminosidade (Some (Fin v)) = (n ++ " LUX")%string /\
     History.formatAxis History.K_co2 v = (n ++ "PPM")%string /\
     formatValue S_co2 (Some (Fin v)) = (n ++ " PPM")%string /\
     History.formatAxis History.K_co v = (n ++ "PPM")%string /\
     formatValue S_co (Some (Fin v)) = (n ++ " PPM")%string) /\
  History.formatAxis History.K_umidade (- (5 # 2)) = "-2%"%string /\
  formatValue S_umidade (Some (Fin (- (5 # 2)))) = "-3%"%string.
Proof.
  split; [|split; [|split; [|split]]].
  - intros v. reflexivity.
  - intros v Hv. unfold formatValue, History.formatAxis. cbn.
    rewrite toFixed0_round by exact Hv. reflexivity.
  - intros v Hv n. unfold formatValue, History.formatAxis. cbn.
    rewrite toFixed0_round by exact Hv. repeat split; reflexivity.
  - vm_compute. reflexivity.
  - vm_compute. reflexivity.
Qed.

Lemma axis_labels_agree_with_cards_witness :
  History.formatAxis History.K_umidade (171 # 2) =
  formatValue S_umidade (Some (Fin (171 # 2))) /\
  formatValue S_umidade (Some (Fin (171 # 2))) = "86%"%string.
Proof.
  split.
  - apply (proj1 (proj2 axis_labels_agree_with_cards) (171 # 2)).
    unfold Qle. cbn. lia.
  - vm_compute. reflexivity.
Defined.

(** X8.  When a reading is absent (no snapshot yet, no [sensores], or the
    field is [undefined] or [null]) the card of the richer screen shows a
    zero reading, never dashes, while the card of the simpler screen shows
    dashes before the unit.  A key without a metric option gives ["--"] on
    both. *)
Theorem missing_reading_cards :
  (forall estufaData k,
     sensorMissing estufaData k ->
     richCard estufaData k =
     match k with
     | S_temperatura => "0.0°C"
     | S_umidade => "0%"
     | S_luminosidade => "0 LUX"
     | S_co2 | S_co => "0 PPM"
     | S_tvocs | S_agua => "--"
     end%string) /\
  (forall d k,
     sensorMissing (Some d) k ->
     simpleCard d k =
     match k with
     | S_temperatura => "--°C"
     | S_umidade => "--%"
     | S_luminosidade => "-- LUX"
     | S_co2 | S_co => "-- PPM"
     | S_tvocs | S_agua => "--"
     end%string).
Proof.
  split.
  - intros estufaData k Hm. unfold richCard, getSensorValue.
    unfold sensorMissing in Hm.
    destruct estufaData as [d|]; [destruct (sensores d) as [s|]|];
      try rewrite Hm; destruct k; vm_compute; reflexivity.
  - intros d k Hm. unfold simpleCard. unfold sensorMissing in Hm.
    destruct (sensores d) as [s|]; try rewrite Hm;
      destruct k; vm_compute; reflexivity.
Qed.

Lemma missing_reading_cards_witness :
  richCard (Some (mkEstufaData None true)) S_temperatura = "0.0°C"%string /\
  simpleCard (mkEstufaData None true) S_temperatura = "--°C"%string.
Proof.
  split.
  - apply (proj1 missing_reading_cards (Some (mkEstufaData None true))
                 S_temperatura). exact I.
  - apply (proj2 missing_reading_cards (mkEstufaData None true)
                 S_temperatura). exact I.
Defined.

(** X9.  Once a snapshot is stored the reservoir status is never
    "Carregando...": it is "Com água" exactly when the raw water level is a
    number strictly above 20, and "Sem água" otherwise, also when the level
    is absent, [NaN] or exactly 20. *)
Theorem reservoir_status_threshold (sens : option SensorData)
        (raw : option number) :
  let status := reservatorioStatus (Some (processData sens raw)) in
  (status = "Com água"%string <-> exists q, raw = Some (Fin q) /\ 20 < q) /\
  (status = "Com água"%string \/ status = "Sem água"%string) /\
  reservatorioStatus (Some (processData sens (Some (Fin 20)))) =
  "Sem água"%string /\
  reservatorioStatus (Some (processData sens None)) = "Sem água"%string.
Proof.
  cbv zeta. split; [|split; [|split; reflexivity]].
  - unfold reservatorioStatus, processData, agua_acima. cbn.
    destruct raw as [[|q]|]; cbn.
    + split; [discriminate | intros (q & H & _); discriminate].
    + destruct (Qle_bool q 20) eqn:E; cbn.
      * split; [discriminate|]. intros (q' & H & Hlt). inversion H; subst.
        apply Qle_bool_iff in E. lra.
      * split; [|reflexivity]. intros _. exists q. split; [reflexivity|].
        assert (~ q <= 20) by (rewrite <- Qle_bool_iff; congruence). lra.
    + split; [discriminate | intros (q & H & _); discriminate].
  - unfold reservatorioStatus, processData. cbn.
    destruct (agua_acima raw); auto.
Qed.

End CardFacts.

(* ================================================================== *)
(** * Chart data of the richer screen *)

Section ChartDataFacts.
Import History.
Import ChartData.
Local Open Scope Q_scope.

Variable Date : Type.
Variable parseISO : string -> Date.
Variable format : Date -> Pattern -> option string.
Variable differenceInHours : Date -> Date -> option Z.
Variable differenceInDays : Date -> Date -> option Z.
Variable StringToNumber : string -> number.
Variable screenWidth : Q.

Local Abbreviation chartData' :=
  (chartData Date parseISO format differenceInHours differenceInDays
             StringToNumber screenWidth).
Local Abbreviation smartPattern' :=
  (smartPattern Date parseISO differenceInHours differenceInDays).

Lemma map_throwing_length {A B : Type} (f : A -> option B) l : forall ys,
  map_throwing f l = Some ys -> List.length ys = List.length l.
Proof.
  induction l as [|x l IH]; intros ys H; cbn in H.
  - inversion H. reflexivity.
  - destruct (f x); [|discriminate].
    destruct (map_throwing f l) as [zs|]; [|discriminate].
    inversion H. cbn. rewrite (IH zs); reflexivity.
Qed.

Lemma map_throwing_fails {A B : Type} (f : A -> option B) l x :
  In x l -> f x = None -> map_throwing f l = None.
Proof.
  induction l as [|y l IH]; intros Hin Hx; [destruct Hin|].
  cbn. destruct Hin as [-> | Hin].
  - rewrite Hx. reflexivity.
  - destruct (f y); [|reflexivity]. rewrite (IH Hin Hx). reflexivity.
Qed.

(** On the records the reducer keeps, the values of the range computation
    are the plotted values. *)
Lemma kept_values_are_plotted k l :
  Forall (fun item => keeps StringToNumber k item = true) l ->
  map (fun item => Number StringToNumber (field k item)) l =
  map Fin (chartValues StringToNumber k l).
Proof.
  unfold chartValues. induction 1 as [|item l Hk Hl IH]; cbn.
  - reflexivity.
  - unfold number_or_zero at 1. unfold keeps in Hk.
    destruct (Number StringToNumber (field k item)) as [|q]; cbn in *.
    + rewrite andb_false_r in Hk. discriminate.
    + rewrite IH. reflexivity.
Qed.

Lemma filtered_all_kept k historico :
  Forall (fun item => keeps StringToNumber k item = true)
         (filteredHistorico StringToNumber k historico).
Proof.
  rewrite filteredHistorico_filter. apply Forall_forall.
  intros item Hin. apply filter_In in Hin. tauto.
Qed.

(** What [chartData] returns, when it returns. *)
Lemma chartData_returns k filtered cd :
  chartData' k filtered = Some cd ->
  data cd = map (fun item => Number StringToNumber (field k item)) filtered /\
  List.length (labels cd) = List.length filtered /\
  (filtered = [] -> totalWidth cd = screenWidth) /\
  (filtered <> [] ->
   totalWidth cd =
   Qmax2 screenWidth (inject_Z (Z.of_nat (List.length filtered)) * 60)).
Proof.
  intros Hcd. unfold chartData in Hcd. destruct filtered as [|item l].
  - inversion Hcd. cbn. repeat split; auto. congruence.
  - remember (item :: l) as f eqn:E.
    destruct (formatSmartTime _ _ _ _ _ _) as [ls|] eqn:F; [|discriminate].
    inversion Hcd. cbn [labels data totalWidth].
    unfold formatSmartTime in F. apply map_throwing_length in F.
    rewrite length_map in F.
    repeat split; auto. intros ->. discriminate E.
Qed.

(** X10.  On a series produced by the reducer, the chart plots exactly the
    values the range was computed from, none of them [NaN], and every
    plotted value lies between [actualMin] and [actualMax]; when the values
    are readings, these lie inside the padded range [min], [max]. *)
Theorem plotted_points_inside_range (k : MetricKey)
        (historico : list HistoricoItem) :
  let filtered := filteredHistorico StringToNumber k historico in
  let r := chartRange StringToNumber k filtered in
  let values := chartValues StringToNumber k filtered in
  (forall cd, chartData' k filtered = Some cd -> data cd = map Fin values) /\
  Forall (fun v => actualMin r <= v /\ v <= actualMax r) values /\
  (Forall reading values ->
   Forall (fun v => min r <= actualMin r /\ actualMin r <= v /\
                    v <= actualMax r /\ actualMax r <= max r) values).
Proof.
  cbv zeta.
  set (filtered := filteredHistorico StringToNumber k historico).
  pose proof (filtered_all_kept k historico) as Hkept. fold filtered in Hkept.
  split.
  { intros cd Hcd. apply chartData_returns in Hcd.
    destruct Hcd as (Hdata & _). rewrite Hdata.
    apply kept_values_are_plotted. exact Hkept. }
  destruct (chartValues StringToNumber k filtered) as [|v vs] eqn:E.
  { split; [constructor | intros _; constructor]. }
  rewrite (chartRange_nonempty StringToNumber k filtered v vs E).
  cbv zeta. cbn [min max actualMin actualMax].
  assert (Hin : Forall (fun x => Math_min 0 (v :: vs) <= x /\
                                 x <= Math_max 0 (v :: vs)) (v :: vs)).
  { cbn [Math_min Math_max].
    destruct (fold_min_spec vs v) as [_ Hmin].
    destruct (fold_max_spec vs v) as [_ Hmax].
    rewrite Forall_forall in *. intros x Hx.
    split; [apply Hmin, Hx | apply Hmax, Hx]. }
  split; [exact Hin|].
  intros Hr.
  destruct (extremes_are_readings v vs Hr) as (Rmn & Rmx & Hle).
  destruct (padded_spec _ _ (proj1 Rmn) (proj1 Rmx) Hle) as (L & U & _).
  cbv zeta in L, U.
  rewrite Forall_forall in *. intros x Hx.
  destruct (Hin x Hx) as [H1 H2].
  repeat split; assumption.
Qed.

(** X11.  The chart data of an empty series is empty with the width of the
    screen.  When [chartData] returns, it has one label and one value for
    each record, and its width is at least the width of the screen and, for
    a non-empty series, at least 60 per record.  When [format] throws on the
    date of any record, the exception is not caught: [chartData] throws. *)
Theorem chart_data_shape_and_failure (k : MetricKey)
        (filtered : list HistoricoItem) :
  (filtered = [] -> chartData' k filtered = Some (mkChartData [] [] screenWidth)) /\
  (forall cd, chartData' k filtered = Some cd ->
     List.length (labels cd) = List.length filtered /\
     List.length (data cd) = List.length filtered /\
     screenWidth <= totalWidth cd /\
     (filtered <> [] ->
      inject_Z (Z.of_nat (List.length filtered)) * 60 <= totalWidth cd)) /\
  (forall item,
     In item filtered ->
     format (parseISO (dataHora item))
            (smartPattern' (map dataHora filtered)) = None ->
     chartData' k filtered = None).
Proof.
  split; [|split].
  - intros ->. reflexivity.
  - intros cd Hcd. apply chartData_returns in Hcd.
    destruct Hcd as (Hdata & Hlab & Hw0 & Hw). rewrite Hdata, length_map.
    split; [exact Hlab|]. split; [reflexivity|].
    destruct filtered as [|item l].
    + rewrite Hw0 by reflexivity. split; [lra | congruence].
    + rewrite Hw by discriminate.
      destruct (Qmax2_cases screenWidth
                  (inject_Z (Z.of_nat (List.length (item :: l))) * 60))
        as (_ & H1 & H2).
      split; [assumption | intros _; assumption].
  - intros item Hin Hfail. unfold chartData.
    destruct filtered as [|item0 l] eqn:E; [destruct Hin|].
    rewrite <- E in *.
    assert (F : formatSmartTime Date parseISO format differenceInHours
                  differenceInDays (map dataHora filtered) = None).
    { unfold formatSmartTime.
      apply map_throwing_fails with (x := dataHora item).
      - apply in_map. exact Hin.
      - exact Hfail. }
    rewrite F. reflexivity.
Qed.

End ChartDataFacts.

(** X10 on a concrete history: temperatures 20, a [null] the reducer drops,
    24 and 22. *)
Lemma plotted_points_inside_range_witness :
  let rec := fun (t : jsval) =>
    History.mkItem (JNum 1) (JNum 400) "2024-05-01T10:00:00Z" (JNum 300) t
                   "k" JUndefined (JNum 80) in
  let historico := [rec (JNum 20); rec JNull; rec (JNum 24); rec (JNum 22)] in
  let filtered :=
    History.filteredHistorico (fun _ => NaN) History.K_temperatura historico in
  let r := History.chartRange (fun _ => NaN) History.K_temperatura filtered in
  let values :=
    History.chartValues (fun _ => NaN) History.K_temperatura filtered in
  values = [20; 24; 22] /\
  Forall reading values /\
  Forall (fun v => History.min r <= History.actualMin r /\
                   History.actualMin r <= v /\
                   v <= History.actualMax r /\
                   History.actualMax r <= History.max r) values.
Proof.
  intros rec historico filtered r values.
  assert (Hr : Forall reading values).
  { repeat constructor; vm_compute; (reflexivity || discriminate). }
  split; [reflexivity|]. split; [exact Hr|].
  apply (proj2 (proj2 (plotted_points_inside_range
                         string (fun s => s) (fun _ _ => Some "10:00"%string)
                         (fun _ _ => Some 1%Z) (fun _ _ => Some 0%Z)
                         (fun _ => NaN) 400
                         History.K_temperatura historico)) Hr).
Defined.

(* ================================================================== *)
(** * Chart data of the simpler screen *)

Section SimpleChartFacts.
Import History.
Import SimpleChart.

Variable parseInt : string -> option Z.
Variable formatISO : string -> option string.
Variable formatMillis : option Z -> option string.

Local Abbreviation stampOf :=
  (fun item : HistoricoItem => parseInt (timestamp item)).
Local Abbreviation sortedData :=
  (fun k (items : list HistoricoItem) =>
     Array_sort (byTimestamp parseInt) (filter (defined k) items)).

Lemma slice_last_length {A : Type} (n : nat) (l : list A) :
  List.length (slice_last n l) = Nat.min n (List.length l).
Proof. unfold slice_last. rewrite length_skipn. lia. Qed.

Lemma in_skipn_in {A : Type} (n : nat) (l : list A) (x : A) :
  In x (skipn n l) -> In x l.
Proof.
  intros H. rewrite <- (firstn_skipn n l). apply in_or_app. right. exact H.
Qed.

(** In a sorted list everything before a cut is below everything after. *)
Lemma sorted_cut {A : Type} (R : A -> A -> Prop) (l : list A) :
  StronglySorted R l ->
  forall n x y, In x (firstn n l) -> In y (skipn n l) -> R x y.
Proof.
  induction 1 as [|a l Hs IH Ha]; intros n x y Hx Hy.
  - rewrite firstn_nil in Hx. destruct Hx.
  - destruct n as [|n]; cbn in Hx, Hy; [destruct Hx|].
    destruct Hx as [<- | Hx].
    + rewrite Forall_forall in Ha. apply Ha.
      apply (in_skipn_in n). exact Hy.
    + apply (IH n); assumption.
Qed.

Lemma sorted_skipn {A : Type} (R : A -> A -> Prop) (l : list A) :
  StronglySorted R l -> forall n, StronglySorted R (skipn n l).
Proof.
  induction 1 as [|a l Hs IH Ha]; intros n.
  - rewrite skipn_nil. constructor.
  - destruct n as [|n]; cbn; [constructor; assumption | apply IH].
Qed.

Lemma limitedData_in k items item :
  In item (limitedData parseInt k items) ->
  In item items /\ defined k item = true.
Proof.
  unfold limitedData, slice_last. intros Hin. apply in_skipn_in in Hin.
  apply (Permutation_in _ (Array_sort_perm (byTimestamp parseInt) _)) in Hin.
  apply filter_In in Hin. exact Hin.
Qed.

(** X12.  The simpler screen plots at most 15 points: as many as there are
    records with a defined value for the metric, up to 15, with one label
    for each; every plotted record comes from the history and has a value
    other than [undefined].  Without a history the chart is empty. *)
Theorem simple_chart_limit (k : MetricKey) (items : list HistoricoItem) :
  let cd := prepareChartData parseInt formatISO formatMillis k (Some items) in
  List.length (data cd) =
    Nat.min 15 (List.length (filter (defined k) items)) /\
  List.length (labels cd) = List.length (data cd) /\
  (List.length (data cd) <= 15)%nat /\
  Forall (fun v => v <> JUndefined) (data cd) /\
  data cd = map (field k) (limitedData parseInt k items) /\
  (forall item, In item (limitedData parseInt k items) -> In item items) /\
  prepareChartData parseInt formatISO formatMillis k None =
  mkChartData [] [].
Proof.
  cbv zeta. unfold prepareChartData. cbn [data labels].
  rewrite !length_map.
  assert (L : List.length (limitedData parseInt k items) =
              Nat.min 15 (List.length (filter (defined k) items))).
  { unfold limitedData. rewrite slice_last_length.
    rewrite (Permutation_length (Array_sort_perm (byTimestamp parseInt) _)).
    reflexivity. }
  repeat split; try (rewrite L; lia).
  - apply Forall_forall. intros v Hv. apply in_map_iff in Hv.
    destruct Hv as (item & <- & Hin).
    apply limitedData_in in Hin. destruct Hin as [_ Hd].
    unfold defined in Hd. destruct (field k item); congruence.
  - intros item Hin. apply limitedData_in in Hin. tauto.
Qed.

(** X13.  When the [timestamp] of every record with a defined value parses
    to an integer, the simpler screen plots the most recent records in
    ascending order of time: the sorted records split into the dropped ones
    followed by the plotted ones, and no dropped record is later than a
    plotted one. *)
Theorem simple_chart_keeps_newest (k : MetricKey)
        (items : list HistoricoItem) :
  Forall (fun item => defined k item = true -> parseInt (timestamp item) <> None)
         items ->
  let sorted := sortedData k items in
  let dropped := firstn (List.length sorted - 15) sorted in
  let plotted := limitedData parseInt k items in
  sorted = dropped ++ plotted /\
  Permutation (dropped ++ plotted) (filter (defined k) items) /\
  StronglySorted (keyLe stampOf) plotted /\
  (forall x y, In x dropped -> In y plotted -> keyLe stampOf x y).
Proof.
  intros Hparse. cbv zeta.
  assert (Hs : StronglySorted (keyLe stampOf) (sortedData k items)).
  { apply (Array_sort_sorted (byTimestamp parseInt) stampOf).
    - intros a b. reflexivity.
    - apply Forall_forall. intros item Hin. apply filter_In in Hin.
      rewrite Forall_forall in Hparse. apply (Hparse item); tauto. }
  unfold limitedData, slice_last.
  split; [symmetry; apply firstn_skipn|].
  split; [rewrite firstn_skipn; apply Array_sort_perm|].
  split; [apply sorted_skipn; exact Hs|].
  intros x y Hx Hy. eapply sorted_cut; eassumption.
Qed.

(** X14.  Every record the richer reducer keeps passes the filter of the
    simpler screen as well.  A record whose value is [null] or [NaN] is
    dropped by the richer reducer and passes the filter of the simpler
    screen; the simpler screen plots it when at most 15 records of the
    history have a defined value, and otherwise only when it is among the
    last 15 of the sorted records. *)
Theorem simple_filter_weaker (StringToNumber : string -> number)
        (k : MetricKey) (items : list HistoricoItem) (item : HistoricoItem) :
  (keeps StringToNumber k item = true -> defined k item = true) /\
  (In item (filteredHistorico StringToNumber k items) ->
   In item (filter (defined k) items)) /\
  (field k item = JNull \/ field k item = JNaN ->
   keeps StringToNumber k item = false /\ defined k item = true /\
   ~ In item (filteredHistorico StringToNumber k items) /\
   (In item items ->
    (List.length (filter (defined k) items) <= 15)%nat ->
    In item (limitedData parseInt k items) /\
    In (field k item)
       (data (prepareChartData parseInt formatISO formatMillis k
                (Some items))))) /\
  limitedData parseInt k items =
  slice_last 15 (sortedData k items).
Proof.
  assert (K : keeps StringToNumber k item = true -> defined k item = true).
  { unfold keeps, defined. destruct (field k item); cbn; congruence. }
  split; [exact K|]. split.
  { rewrite filteredHistorico_filter. intros Hin.
    apply filter_In in Hin. apply filter_In. split; [tauto|].
    apply K. tauto. }
  split; [|reflexivity].
  intros Hnull.
  assert (Hk : keeps StringToNumber k item = false).
  { unfold keeps. destruct Hnull as [-> | ->]; reflexivity. }
  assert (Hd : defined k item = true).
  { unfold defined. destruct Hnull as [-> | ->]; reflexivity. }
  split; [exact Hk|]. split; [exact Hd|]. split.
  { rewrite filteredHistorico_filter. intros Hin. apply filter_In in Hin.
    destruct Hin as [_ Hin]. congruence. }
  intros Hin Hlen.
  assert (Hl : In item (limitedData parseInt k items)).
  { unfold limitedData, slice_last.
    assert (L : List.length
                  (Array_sort (byTimestamp parseInt)
                     (filter (defined k) items)) =
                List.length (filter (defined k) items)).
    { apply Permutation_length, Array_sort_perm. }
    replace (List.length
               (Array_sort (byTimestamp parseInt)
                  (filter (defined k) items)) - 15)%nat with 0%nat by lia.
    cbn [skipn].
    apply (Permutation_in _
             (Permutation_sym (Array_sort_perm (byTimestamp parseInt) _))).
    apply filter_In. split; assumption. }
  split; [exact Hl|].
  unfold prepareChartData. cbn [data]. apply in_map. exact Hl.
Qed.

End SimpleChartFacts.

Lemma simple_chart_keeps_newest_witness :
  let rec := fun (ts : string) (t : jsval) =>
    History.mkItem (JNum 1) (JNum 400) "" (JNum 300) t ts JUndefined (JNum 80) in
  let parse := fun s : string =>
    if String.eqb s "100" then Some 100%Z
    else if String.eqb s "200" then Some 200%Z
    else if String.eqb s "300" then Some 300%Z else None in
  let items := [rec "300"%string (JNum 22); rec "100"%string JNull;
                rec "bad"%string JUndefined; rec "200"%string (JNum 21)] in
  StronglySorted (keyLe (fun item => parse (History.timestamp item)))
                 (SimpleChart.limitedData parse History.K_temperatura items) /\
  map History.temperatura (SimpleChart.limitedData parse History.K_temperatura items) =
  [JNull; JNum 21; JNum 22].
Proof.
  intros rec parse items. split.
  - apply (simple_chart_keeps_newest parse History.K_temperatura items).
    repeat constructor; cbn; intros; discriminate.
  - vm_compute. reflexivity.
Defined.

(** X14 on concrete histories.  A history of three records, one of them
    [null]: the richer reducer drops the [null], the simpler screen plots
    it.  A history of sixteen records whose oldest value is [null]: the
    simpler screen plots the fifteen newest and not the [null]. *)
Lemma simple_filter_weaker_witness :
  let rec := fun (ts : string) (t : jsval) =>
    History.mkItem (JNum 1) (JNum 400) "" (JNum 300) t ts JUndefined (JNum 80) in
  let parse := fun s : string =>
    match NilZero.uint_of_string s with
    | Some u => Some (Z.of_uint u)
    | None => None
    end in
  let small := [rec "3"%string (JNum 22); rec "1"%string JNull;
                rec "2"%string (JNum 21)] in
  let large :=
    rec "1"%string JNull ::
    map (fun n => rec (NilZero.string_of_uint (Nat.to_uint n))
                      (JNum (inject_Z (Z.of_nat n))))
        (seq 2 15) in
  In (rec "1"%string JNull)
     (SimpleChart.limitedData parse History.K_temperatura small) /\
  map History.temperatura
      (History.filteredHistorico (fun _ => NaN) History.K_temperatura small) =
  [JNum 22; JNum 21] /\
  List.length (filter (SimpleChart.defined History.K_temperatura) large) =
  16%nat /\
  map History.temperatura
      (SimpleChart.limitedData parse History.K_temperatura large) =
  map (fun n => JNum (inject_Z (Z.of_nat n))) (seq 2 15).
Proof.
  intros rec parse small large. split; [|split; [|split]].
  - apply (proj2 (proj2 (simple_filter_weaker parse (fun _ => None)
                           (fun _ => None) (fun _ => NaN)
                           History.K_temperatura small
                           (rec "1"%string JNull)))).
    + left. reflexivity.
    + right. left. reflexivity.
    + vm_compute. lia.
  - vm_compute. reflexivity.
  - vm_compute. reflexivity.
  - vm_compute. reflexivity.
Defined.

(* ================================================================== *)
(** * The actuator screens *)

Section PanelFacts.
Import Actuators.
Import Panel.

Lemma ledsOn_not_placeholder w : ledsOn w <> placeholder.
Proof. intros H. apply (f_equal color) in H. discriminate H. Qed.

(** X15.  The two variants of the screen on the same non-empty snapshot:
    the earlier variant derives its cards from the snapshot as it is, the
    documented one from the snapshot merged with the defaults by its
    callback.  When the snapshot has [atuadores], both show the same state
    for the climate control and the exhaust fan; the same state for the
    LEDs when [leds] is present, while without [leds] the earlier variant
    raises a [TypeError] and the documented one shows OFF; and the same
    state for the humidifier unless [umidificador] is absent and [rele3] is
    on, where the earlier variant shows ON and the documented one OFF.
    Without [atuadores] every derivation of the earlier variant raises a
    [TypeError] and the documented variant shows every actuator OFF. *)
Theorem actuator_screens_compared (fb : PanelData)
        (prev : option PanelData) :
  let s := Simple.onValue (Some fb) in
  let d := Rich.onValue (Some fb) prev in
  (forall a, atuadores fb = Some a ->
     Actuators.Simple.climatizador (relayView s) =
       Some (Actuators.Rich.climatizador (relayView d)) /\
     Simple.exaustor s = Some (Rich.exaustor d) /\
     (leds a <> None -> Simple.leds s = Some (Rich.leds d)) /\
     (leds a = None -> Simple.leds s = None /\ Rich.leds d = ledsOff) /\
     (Actuators.umidificador (relays a) <> None \/
      Boolean (rele3 (relays a)) = false ->
      Actuators.Simple.umidificador (relayView s) =
        Some (Actuators.Rich.umidificador (relayView d))) /\
     (Actuators.umidificador (relays a) = None ->
      Boolean (rele3 (relays a)) = true ->
      Actuators.Simple.umidificador (relayView s) = Some umidOn /\
      Actuators.Rich.umidificador (relayView d) = umidOff)) /\
  (atuadores fb = None ->
     (Actuators.Simple.climatizador (relayView s) = None /\
      Actuators.Simple.umidificador (relayView s) = None /\
      Simple.exaustor s = None /\ Simple.leds s = None) /\
     (Actuators.Rich.climatizador (relayView d) = climaOff /\
      Actuators.Rich.umidificador (relayView d) = umidOff /\
      Rich.exaustor d = exaustorOff /\ Rich.leds d = ledsOff)).
Proof.
  cbv zeta. destruct fb as [[[r l]|]]; cbn [atuadores]; split;
    try (intros a Ha; inversion Ha; subst a; clear Ha; cbn [leds relays]);
    try (intros H; discriminate H).
  - destruct r as [r1 r2 r3 r4 um].
    cbn [Actuators.umidificador rele3].
    split.
    { destruct r1 as [[|]|], r2 as [[|]|]; reflexivity. }
    split.
    { destruct r4 as [[|]|]; reflexivity. }
    split.
    { intros Hl. destruct l as [[lg w]|]; [|congruence].
      destruct lg as [[|]|], w as [w|]; reflexivity. }
    split.
    { intros ->. split; reflexivity. }
    split.
    { intros [Hu | Hr].
      - destruct um as [[|]|]; [reflexivity | reflexivity | congruence].
      - destruct um as [[|]|]; try reflexivity.
        destruct r3 as [[|]|]; try reflexivity. discriminate Hr. }
    intros -> Hr. destruct r3 as [[|]|]; try discriminate Hr.
    split; reflexivity.
  - intros _. repeat split.
Qed.

Lemma actuator_screens_compared_witness :
  let fb := mkPanelData
              (Some (mkFirebaseAtuadores
                       (mkAtuadores (Some true) None (Some true) (Some true)
                                    None)
                       (Some (mkLeds (Some true) None)))) in
  Simple.leds (Simple.onValue (Some fb)) =
    Some (Rich.leds (Rich.onValue (Some fb) None)) /\
  Rich.leds (Rich.onValue (Some fb) None) = mkStatus "0 W" "#E0B0FF" /\
  Actuators.Simple.umidificador (relayView (Simple.onValue (Some fb))) =
    Some umidOn /\
  Actuators.Rich.umidificador (relayView (Rich.onValue (Some fb) None)) =
    umidOff.
Proof.
  intros fb.
  destruct (proj1 (actuator_screens_compared fb None) _ eq_refl)
    as (_ & _ & Hl & _ & _ & Hu).
  split; [apply Hl; discriminate|].
  split; [vm_compute; reflexivity|].
  apply Hu; reflexivity.
Defined.

(** X16.  In the documented variant, after any non-empty snapshot none of
    the four cards shows the placeholder, whatever fields the snapshot
    lacks; an empty snapshot leaves the stored data, and so the cards, as
    they were. *)
Theorem rich_cards_never_placeholder_after_data (firebaseData : PanelData)
        (previous : option PanelData) :
  let data := Rich.onValue (Some firebaseData) previous in
  Actuators.Rich.climatizador (relayView data) <> placeholder /\
  Actuators.Rich.umidificador (relayView data) <> placeholder /\
  Rich.leds data <> placeholder /\
  Rich.exaustor data <> placeholder /\
  Rich.onValue None previous = previous.
Proof.
  cbv zeta. unfold Rich.onValue, Rich.processData. cbn.
  repeat split.
  - unfold Actuators.Rich.climatizador. cbn.
    destruct (Boolean _); cbn; [|discriminate].
    destruct (Boolean _); discriminate.
  - unfold Actuators.Rich.umidificador. cbn.
    destruct (Boolean _); discriminate.
  - destruct (Boolean _); [apply ledsOn_not_placeholder | discriminate].
  - destruct (Boolean _); discriminate.
Qed.

(** X17.  In the documented variant the subscription callback fills an
    absent [umidificador] with [false] before the derivation runs, so the
    humidifier card is the truth value of the snapshot's [umidificador]
    alone and [rele3] is never consulted: a snapshot with [rele3] on and no
    [umidificador] shows "OFF", where the earlier variant shows "ON". *)
Theorem rich_humidifier_ignores_rele3 (firebaseData : PanelData)
        (previous : option PanelData) :
  let reported :=
    match atuadores firebaseData with
    | Some a => umidificador (relays a)
    | None => None
    end in
  Actuators.Rich.umidificador
    (relayView (Rich.onValue (Some firebaseData) previous)) =
  (if Boolean reported then umidOn else umidOff) /\
  (reported = None ->
   (match atuadores firebaseData with
    | Some a => rele3 (relays a)
    | None => None
    end) = Some true ->
   Actuators.Rich.umidificador
     (relayView (Rich.onValue (Some firebaseData) previous)) = umidOff /\
   Actuators.Simple.umidificador
     (relayView (Simple.onValue (Some firebaseData))) = Some umidOn).
Proof.
  cbv zeta. unfold Rich.onValue, Simple.onValue, Rich.processData.
  destruct firebaseData as [[[[r1 r2 r3 r4 u] l]|]]; cbn.
  - unfold Actuators.Rich.umidificador, Actuators.Simple.umidificador. cbn.
    destruct u as [[|]|]; cbn; split; try reflexivity; try discriminate.
    intros _ R3. rewrite R3. split; reflexivity.
  - split; [reflexivity|]. intros _ H. discriminate H.
Qed.

Lemma rich_humidifier_ignores_rele3_witness :
  let fb := mkPanelData
              (Some (mkFirebaseAtuadores
                       (mkAtuadores (Some true) None (Some true) None None)
                       None)) in
  Actuators.Rich.umidificador (relayView (Rich.onValue (Some fb) None)) =
  umidOff /\
  Actuators.Simple.umidificador (relayView (Simple.onValue (Some fb))) =
  Some umidOn.
Proof.
  intros fb.
  apply (proj2 (rich_humidifier_ignores_rele3 fb None)); reflexivity.
Defined.

End PanelFacts.

(* ================================================================== *)
(** * The simpler monitoring screen *)

Section SimpleScreenFacts.
Import SimpleMonitor.
Import SimpleScreen.
Local Open Scope Z_scope.

(** X18.  On the simpler screen the subscription callback publishes what
    [checkOnlineStatus] answers for the heartbeat of the snapshot ([false]
    without one), the interval publishes the same for the stored snapshot,
    and for a given heartbeat the answer never returns to [true] as the
    clock advances: once offline, the screen stays offline until a newer
    heartbeat is stored. *)
Theorem simple_screen_offline_is_permanent :
  (forall now data,
     onValue now data =
     match data with
     | Some lastHeartbeat => checkOnlineStatus now lastHeartbeat
     | None => false
     end) /\
  (forall now lastHeartbeat b,
     truthy lastHeartbeat = true ->
     interval now (Some lastHeartbeat) b =
     checkOnlineStatus now lastHeartbeat) /\
  (forall now later lastHeartbeat,
     now <= later ->
     checkOnlineStatus now lastHeartbeat = false ->
     checkOnlineStatus later lastHeartbeat = false).
Proof.
  split; [|split].
  - intros now [hb|]; cbn; [|reflexivity].
    unfold checkOnlineStatus. destruct (truthy hb); reflexivity.
  - intros now hb b H. unfold interval. rewrite H. reflexivity.
  - intros now later hb Hle. unfold checkOnlineStatus.
    destruct (truthy hb); cbn; [|reflexivity].
    destruct hb as [| |t]; try reflexivity.
    destruct (Z.ltb_spec (now - t) 45000); [discriminate|].
    intros _. destruct (Z.ltb_spec (later - t) 45000); [lia | reflexivity].
Qed.

Lemma simple_screen_offline_is_permanent_witness :
  checkOnlineStatus 60000 (TNum 1000) = false.
Proof.
  apply (proj2 (proj2 simple_screen_offline_is_permanent) 50000 60000
               (TNum 1000)); [lia | reflexivity].
Defined.

End SimpleScreenFacts.

(* ================================================================== *)
(** * Session service and device resolution *)

Section SessionFacts.
Import Session.
Local Open Scope Z_scope.

Lemma checkActiveSession_valid now d s :
  active_session d = Some (Json s) ->
  now - timestamp s <= thirtyDays ->
  currentUser d = Some (userId s) ->
  checkActiveSession now d = (Some s, d).
Proof.
  intros Hs Hage Hu. unfold checkActiveSession. rewrite Hs, Hu.
  destruct (Z.ltb_spec thirtyDays (now - timestamp s)); [lia|].
  rewrite String.eqb_refl. reflexivity.
Qed.

(** A check either returns the stored session and leaves the device, or
    returns nothing and leaves no session; credentials, signed-in user and
    database are left alone in both cases. *)
Lemma checkActiveSession_cases now d :
  (exists s, active_session d = Some (Json s) /\
             checkActiveSession now d = (Some s, d)) \/
  (fst (checkActiveSession now d) = None /\
   active_session (snd (checkActiveSession now d)) = None /\
   user_credentials (snd (checkActiveSession now d)) = user_credentials d /\
   currentUser (snd (checkActiveSession now d)) = currentUser d /\
   greenhouseUser (snd (checkActiveSession now d)) = greenhouseUser d).
Proof.
  unfold checkActiveSession.
  destruct (active_session d) as [[|s]|] eqn:E.
  - right. cbn. repeat split; auto.
  - destruct (thirtyDays <? now - timestamp s);
      [right; cbn; repeat split; auto|].
    destruct (currentUser d) as [uid|] eqn:U;
      [|right; cbn; repeat split; auto].
    destruct (String.eqb uid (userId s)); cbn.
    + left. exists s. auto.
    + right. repeat split; auto.
  - right. cbn. repeat split; auto.
Qed.

Lemma releaseGreenhouse_local ok id d :
  active_session (releaseGreenhouse ok id d) = active_session d /\
  user_credentials (releaseGreenhouse ok id d) = user_credentials d /\
  currentUser (releaseGreenhouse ok id d) = currentUser d.
Proof. destruct ok; cbn; auto. Qed.

Lemma logout_no_session estufaId updateOk signOutOk d :
  active_session (logout estufaId updateOk signOutOk d) = None /\
  user_credentials (logout estufaId updateOk signOutOk d) = None.
Proof. unfold logout. cbn. auto. Qed.

Lemma check_without_session now d :
  active_session d = None -> checkActiveSession now d = (None, d).
Proof. intros H. unfold checkActiveSession. rewrite H. reflexivity. Qed.

(** X19.  A session saved at [t] is returned unchanged by a check made up
    to 30 days later (the boundary included) while the same user is signed
    in, and the check leaves the device as it is; an empty greenhouse id is
    stored as no greenhouse. *)
Theorem session_round_trip (uid : string) (estufaId : option string)
        (t now : Z) (d : Device) :
  currentUser d = Some uid ->
  now - t <= thirtyDays ->
  let d1 := saveActiveSession uid estufaId t d in
  checkActiveSession now d1 =
    (Some (mkSession true uid (or_null estufaId) t), d1) /\
  (estufaId = Some ""%string ->
   fst (checkActiveSession now d1) = Some (mkSession true uid None t)).
Proof.
  intros Hu Hage d1.
  assert (H : checkActiveSession now d1 =
              (Some (mkSession true uid (or_null estufaId) t), d1)).
  { apply checkActiveSession_valid; cbn; auto. }
  split; [exact H|]. intros ->. rewrite H. reflexivity.
Qed.

Lemma session_round_trip_witness :
  let d := mkDevice None None (Some "u1"%string) (fun _ => None) in
  fst (checkActiveSession (1000 + thirtyDays)
         (saveActiveSession "u1" (Some "IFUNGI-001"%string) 1000 d)) =
  Some (mkSession true "u1" (Some "IFUNGI-001"%string) 1000).
Proof.
  intros d.
  rewrite (proj1 (session_round_trip "u1" (Some "IFUNGI-001"%string) 1000
                    (1000 + thirtyDays) d eq_refl ltac:(lia))).
  reflexivity.
Defined.

(** X20.  A stored session that is older than 30 days, belongs to another
    user than the one signed in (or nobody is signed in), or does not parse,
    is not returned and is removed from the storage: every later check
    finds nothing, whatever the clock and the signed-in user are then.  The
    saved credentials are not touched. *)
Theorem invalid_session_is_removed (now : Z) (d : Device) :
  (active_session d = Some Corrupt \/
   exists s, active_session d = Some (Json s) /\
             (thirtyDays < now - timestamp s \/
              currentUser d <> Some (userId s))) ->
  let d' := snd (checkActiveSession now d) in
  fst (checkActiveSession now d) = None /\
  active_session d' = None /\
  user_credentials d' = user_credentials d /\
  (forall later user,
     fst (checkActiveSession later
            (mkDevice (active_session d') (user_credentials d') user
                      (greenhouseUser d'))) = None).
Proof.
  intros H. cbv zeta.
  assert (K : checkActiveSession now d = (None, clearActiveSession d)).
  { unfold checkActiveSession. destruct H as [-> | (s & -> & Hbad)].
    - reflexivity.
    - destruct (Z.ltb_spec thirtyDays (now - timestamp s)); [reflexivity|].
      destruct Hbad as [Hbad|Hbad]; [lia|].
      destruct (currentUser d) as [uid|]; [|reflexivity].
      destruct (String.eqb_spec uid (userId s)); [|reflexivity].
      subst. congruence. }
  rewrite K. cbn. repeat split.
Qed.

Lemma invalid_session_is_removed_witness :
  let d := mkDevice (Some (Json (mkSession true "u1" (Some "E1"%string) 0)))
                    None (Some "u1"%string) (fun _ => None) in
  fst (checkActiveSession (thirtyDays + 1) d) = None /\
  active_session (snd (checkActiveSession (thirtyDays + 1) d)) = None.
Proof.
  intros d.
  destruct (invalid_session_is_removed (thirtyDays + 1) d) as (H1 & H2 & _).
  - right. eexists. split; [reflexivity|]. left. cbn. lia.
  - split; assumption.
Defined.

(** X21.  Leaving a greenhouse with a valid session keeps the user logged
    in: the stored session keeps its user, loses its greenhouse and is
    stamped with the current time, so its 30 days start again; credentials
    and signed-in user are untouched, and the greenhouse is released in the
    database when the update succeeds. *)
Theorem leave_keeps_login (estufaId : string) (checkNow stampNow : Z)
        (updateOk : bool) (d : Device) (s : SessionData) :
  active_session d = Some (Json s) ->
  isLoggedIn s = true ->
  checkNow - timestamp s <= thirtyDays ->
  currentUser d = Some (userId s) ->
  let d' := leaveEstufa estufaId checkNow stampNow updateOk d in
  active_session d' = Some (Json (mkSession true (userId s) None stampNow)) /\
  user_credentials d' = user_credentials d /\
  currentUser d' = currentUser d /\
  (updateOk = true -> greenhouseUser d' estufaId = None) /\
  (updateOk = false -> greenhouseUser d' = greenhouseUser d) /\
  (forall later, later - stampNow <= thirtyDays ->
     fst (checkActiveSession later d') =
     Some (mkSession true (userId s) None stampNow)).
Proof.
  intros Hs Hlog Hage Hu d'. subst d'. unfold leaveEstufa.
  rewrite (checkActiveSession_valid checkNow d s Hs Hage Hu). rewrite Hlog.
  cbv beta iota zeta.
  set (d2 := mkDevice (Some (Json (mkSession true (userId s) None stampNow)))
                      (user_credentials d) (currentUser d) (greenhouseUser d)).
  destruct (releaseGreenhouse_local updateOk estufaId d2) as (Ra & Rc & Ru).
  split; [rewrite Ra; reflexivity|].
  split; [rewrite Rc; reflexivity|].
  split; [rewrite Ru; reflexivity|].
  split; [intros ->; cbn; rewrite String.eqb_refl; reflexivity|].
  split; [intros ->; reflexivity|].
  intros later Hl.
  rewrite (checkActiveSession_valid later _
             (mkSession true (userId s) None stampNow)).
  - reflexivity.
  - rewrite Ra. reflexivity.
  - exact Hl.
  - rewrite Ru. exact Hu.
Qed.

Lemma leave_keeps_login_witness :
  let s := mkSession true "u1" (Some "E1"%string) 1000 in
  let d := mkDevice (Some (Json s)) None (Some "u1"%string)
                    (fun _ => Some "u1"%string) in
  active_session (leaveEstufa "E1" 5000 5001 true d) =
  Some (Json (mkSession true "u1" None 5001)).
Proof.
  intros s d.
  apply (leave_keeps_login "E1" 5000 5001 true d s); try reflexivity.
  cbn. unfold thirtyDays. lia.
Defined.

(** X22.  After [logout] no session and no credentials are stored, whether
    or not the database update and the Firebase sign-out succeeded: every
    later check finds no session and the saved credentials are gone.  A
    successful sign-out leaves nobody signed in. *)
Theorem logout_clears_local_state (estufaId : option string)
        (updateOk signOutOk : bool) (d : Device) :
  let d' := logout estufaId updateOk signOutOk d in
  active_session d' = None /\
  user_credentials d' = None /\
  getSavedCredentials d' = None /\
  (forall now, checkActiveSession now d' = (None, d')) /\
  (signOutOk = true -> currentUser d' = None).
Proof.
  cbv zeta.
  destruct (logout_no_session estufaId updateOk signOutOk d) as [Hs Hc].
  split; [exact Hs|]. split; [exact Hc|].
  split; [unfold getSavedCredentials; rewrite Hc; reflexivity|].
  split; [intros now; apply check_without_session; exact Hs|].
  intros ->. unfold logout. destruct (or_null estufaId); reflexivity.
Qed.

(** X23.  Saved credentials are read back as saved, with [rememberMe] set,
    and survive every session operation short of [logout]: saving a
    session, checking it (also when the check removes it) and leaving a
    greenhouse. *)
Theorem credentials_survive_session_operations (e p : string) (t : Z)
        (d : Device) :
  getSavedCredentials (saveCredentials e p t d) =
    Some (mkCredentials e p true t) /\
  getSavedCredentials (clearCredentials (saveCredentials e p t d)) = None /\
  (forall uid estufaId now,
     getSavedCredentials (saveActiveSession uid estufaId now d) =
     getSavedCredentials d) /\
  (forall now,
     getSavedCredentials (snd (checkActiveSession now d)) =
     getSavedCredentials d) /\
  (forall estufaId checkNow stampNow updateOk,
     getSavedCredentials (leaveEstufa estufaId checkNow stampNow updateOk d) =
     getSavedCredentials d).
Proof.
  split; [reflexivity|]. split; [reflexivity|]. split; [reflexivity|].
  assert (C : forall now,
             user_credentials (snd (checkActiveSession now d)) =
             user_credentials d).
  { intros now.
    destruct (checkActiveSession_cases now d)
      as [(s & _ & ->) | (_ & _ & H & _)]; [reflexivity | exact H]. }
  split.
  - intros now. unfold getSavedCredentials. rewrite C. reflexivity.
  - intros estufaId checkNow stampNow updateOk.
    unfold getSavedCredentials, leaveEstufa. specialize (C checkNow).
    destruct (checkActiveSession checkNow d) as [o d1]. cbn [snd] in C.
    rewrite (proj1 (proj2 (releaseGreenhouse_local updateOk estufaId _))).
    destruct o as [s|]; [destruct (isLoggedIn s)|]; cbn; rewrite C;
      reflexivity.
Qed.

(** X24.  The monitoring screen resolves its greenhouse from the route
    parameter when that is a non-empty string, without reading the session;
    otherwise from a valid session that holds a greenhouse.  After the user
    has left the greenhouse or logged out, a screen opened without a route
    parameter reports that no greenhouse is connected. *)
Theorem greenhouse_resolution (now : Z) (d : Device) :
  (forall id, id <> ""%string ->
     resolveEstufa (Some id) now d = (Resolved id, d)) /\
  (forall s id,
     active_session d = Some (Json s) ->
     now - timestamp s <= thirtyDays ->
     currentUser d = Some (userId s) ->
     userEstufa s = Some id -> id <> ""%string ->
     resolveEstufa None now d = (Resolved id, d)) /\
  (forall estufaId checkNow stampNow updateOk,
     (forall s, active_session d = Some (Json s) -> isLoggedIn s = true) ->
     exists msg,
       fst (resolveEstufa None now
              (leaveEstufa estufaId checkNow stampNow updateOk d)) =
       NoEstufa msg) /\
  (forall estufaId updateOk signOutOk,
     exists msg,
       fst (resolveEstufa None now (logout estufaId updateOk signOutOk d)) =
       NoEstufa msg).
Proof.
  split; [|split; [|split]].
  - intros id Hid. unfold resolveEstufa, or_null.
    destruct (String.eqb_spec id ""); [contradiction | reflexivity].
  - intros s id Hs Hage Hu He Hid. unfold resolveEstufa. cbn [or_null].
    rewrite (checkActiveSession_valid now d s Hs Hage Hu). rewrite He.
    unfold or_null. destruct (String.eqb_spec id ""); [contradiction|].
    reflexivity.
  - intros estufaId checkNow stampNow updateOk Hlog.
    assert (A : forall s,
               active_session
                 (leaveEstufa estufaId checkNow stampNow updateOk d) =
               Some (Json s) -> userEstufa s = None).
    { intros s0. unfold leaveEstufa.
      destruct (checkActiveSession_cases checkNow d)
        as [(s & Hs & ->) | (Hn & Hd & _)].
      - rewrite (Hlog s Hs).
        rewrite (proj1 (releaseGreenhouse_local updateOk estufaId _)).
        cbn. intros H. inversion H. reflexivity.
      - destruct (checkActiveSession checkNow d) as [o d1].
        cbn [fst snd] in Hn, Hd. subst o.
        rewrite (proj1 (releaseGreenhouse_local updateOk estufaId _)).
        rewrite Hd. discriminate. }
    unfold resolveEstufa. cbn [or_null].
    destruct (checkActiveSession_cases now
                (leaveEstufa estufaId checkNow stampNow updateOk d))
      as [(s & Hs & ->) | (Hn & _)].
    + rewrite (A s Hs). cbn. eauto.
    + destruct (checkActiveSession now _) as [o d1]. cbn in Hn. subst o.
      cbn. eauto.
  - intros estufaId updateOk signOutOk. unfold resolveEstufa. cbn [or_null].
    rewrite (check_without_session now _
               (proj1 (logout_no_session estufaId updateOk signOutOk d))).
    cbn. eauto.
Qed.

End SessionFacts.
